(** * winding-tree-server: registration, cookie sessions and the whoami route

    A shallow embedding of [internal/apiserver/server.go], of the
    [store.UserRepository] interface and of [sqlstore.Store], with the
    properties of the HTTP surface proved over it.

    Go pointers that may be nil are [option]s, a run-time panic is an
    outcome of its own, and the state a handler mutates (the gin context, the
    store behind [s.store]) is threaded explicitly. *)

From Stdlib Require Import ZArith String List Bool Ascii Lia.
From stdpp Require Import base option list strings gmap.

Local Open Scope string_scope.
Local Open Scope list_scope.

(** ** Go values *)

(** Go's [error] values, by the kinds the server distinguishes. *)
Inductive error :=
| ValidationError
| ConflictError
| NotFoundError
| StoreError
| InternalError
| CookieError.

(** The two run-time panics the handlers can raise: a field access through a
    nil pointer, and a failed type assertion [x.(T)] (the string names [T]). *)
Inductive panic :=
| NilDereference
| InterfaceConversion (want : string).

(** ** package model *)
Module model.

(** Modelled from the spec: the [User] struct of package [model] (its file is
    not among the sources): id, email, write-only password, derived hash. *)
Record User := mkUser {
  ID : Z;
  Email : string;
  Password : string;
  EncryptedPassword : string
}.

(** Modelled from the spec: the credential hasher, [Hash(plaintext) ->
    digest, error] and [Verify(digest, plaintext) -> bool]; the hash function
    itself is a library's, so it is taken as a parameter. *)
Record Hasher := {
  Hash : string -> option string;
  Verify : string -> string -> bool
}.

(** Modelled from the spec: [Validate] requires a non-empty email of valid
    syntax and, when [encrypted_password] is empty, a password of at least 6
    characters. [true] stands for a nil error. *)
Definition Validate (IsEmail : string -> bool) (u : User) : bool :=
  negb (String.eqb (Email u) "")
  && IsEmail (Email u)
  && (if String.eqb (EncryptedPassword u) ""
      then (6 <=? String.length (Password u))%nat
      else true).

(** Modelled from the spec: [BeforeCreate] derives [encrypted_password] from a
    non-empty password; [None] is the hasher's failure. *)
Definition BeforeCreate (h : Hasher) (u : User) : option User :=
  if String.eqb (Password u) "" then Some u
  else match Hash h (Password u) with
       | Some enc => Some (mkUser (ID u) (Email u) (Password u) enc)
       | None => None
       end.

(** Modelled from the spec: [Sanitize] clears the plaintext password. *)
Definition Sanitize (u : User) : User :=
  mkUser (ID u) (Email u) "" (EncryptedPassword u).

(** Modelled from the spec: [ComparePasswords] is the hash-compare of the
    stored digest with the candidate. *)
Definition ComparePasswords (h : Hasher) (u : User) (password : string) : bool :=
  Verify h (EncryptedPassword u) password.

(** The test fixture of package [model]. *)
Definition TestUser : User :=
  mkUser 0 "user@example.test" "password" "".

End model.

(** A value held in an [interface{}]: what the session payload and the gin
    context keys carry. *)
Inductive Value :=
| VInt (n : Z)
| VString (s : string)
| VUser (u : model.User).

(** ** net/http *)
Module http.

Definition StatusOK : Z := 200.
Definition StatusBadRequest : Z := 400.
Definition StatusUnauthorized : Z := 401.
Definition StatusInternalServerError : Z := 500.

(** A request body, by what [encoding/json] makes of it when decoding into a
    nil [*model.User]: an object that decodes, the literal [null] (no error,
    the pointer stays nil), input that is not JSON (an error, the pointer
    stays nil), or an object with a field of the wrong type (an error after
    the pointer was allocated and the other fields set). *)
Inductive Body :=
| JSONUser (u : model.User)
| JSONNull
| JSONMalformed
| JSONMismatch (u : model.User).

Record Request := mkRequest {
  ReqBody : Body;
  Cookies : list (string * string)
}.

(** [r.Cookie(name)]: the first cookie of that name. *)
Fixpoint Cookie (cs : list (string * string)) (name : string) : option string :=
  match cs with
  | [] => None
  | (n, v) :: rest => if String.eqb n name then Some v else Cookie rest name
  end.

Inductive HeaderField :=
| Field (key value : string)
| SetCookie (name value : string).

(** What a client keeps of a response header: the cookies it was set. *)
Fixpoint SetCookies (h : list HeaderField) : list (string * string) :=
  match h with
  | [] => []
  | SetCookie n v :: rest => (n, v) :: SetCookies rest
  | Field _ _ :: rest => SetCookies rest
  end.

(** [AlterByte i b v] is [v] with its byte at position [i] replaced by [b]. *)
Fixpoint AlterByte (i : nat) (b : ascii) (v : string) : string :=
  match v, i with
  | EmptyString, _ => EmptyString
  | String _ rest, O => String b rest
  | String a rest, S j => String a (AlterByte j b rest)
  end.

End http.

(** ** gorilla/sessions: the [Store] interface the server is written against *)
Module sessions.

Record Session := mkSession {
  Name : string;
  Values : gmap string Value;
  IsNew : bool
}.

(** [Get] returns a session and an error; [Save] writes to the response
    header and returns an error. *)
Record Store := {
  Get : http.Request -> string -> Session * option error;
  Save : http.Request -> list http.HeaderField -> Session
         -> list http.HeaderField * option error
}.

End sessions.

(** ** The cookie store [Start] builds with [cookie.NewStore] *)
Module cookie.

(** The keyed codec of the cookie store (sign, then verify on the way back);
    [None] is an encoding or a verification failure. *)
Record Codec := {
  Encode : string -> gmap string Value -> option string;
  Decode : string -> string -> option (gmap string Value)
}.

(** The store keeps nothing on the server (gorilla's [CookieStore], which
    gin-contrib's [cookie.NewStore] wraps). [Get] without a cookie of that
    name gives a new session and no error; with a cookie it decodes it into
    the session's values, and for a cookie that does not verify it returns
    the new session together with the codec's error
    ([err = securecookie.DecodeMulti(...); return session, err]). [Save]
    encodes the payload into a [Set-Cookie], or returns the codec's error. *)
Definition NewStore (cd : Codec) : sessions.Store := {|
  sessions.Get := fun r name =>
    match http.Cookie (http.Cookies r) name with
    | None => (sessions.mkSession name ∅ true, None)
    | Some v =>
        match Decode cd name v with
        | Some vals => (sessions.mkSession name vals false, None)
        | None => (sessions.mkSession name ∅ true, Some CookieError)
        end
    end;
  sessions.Save := fun _ h s =>
    match Encode cd (sessions.Name s) (sessions.Values s) with
    | Some v => (h ++ [http.SetCookie (sessions.Name s) v], None)
    | None => (h, Some CookieError)
    end
|}.

End cookie.

(** ** gin: the request context and the handler chain *)
Module gin.

(** What [c.JSON] serializes: a [gin.H] of string fields, or a user record. *)
Inductive JSON :=
| H (fields : list (string * string))
| JUser (u : model.User).

Inductive Level := InfoLevel | WarnLevel | ErrorLevel.

Record Context := mkContext {
  Request : http.Request;
  Status : Z;                       (* c.Writer.Status() *)
  Written : list JSON;              (* bodies written, in order *)
  Header : list http.HeaderField;   (* response header *)
  Keys : gmap string Value;         (* c.Set / c.Value *)
  index : Z;                        (* position in the handler chain *)
  Log : list (Level * Z);           (* completion lines of the request logger *)
  Sent : option (Z * list http.HeaderField)
    (* the status line and header as WriteHeaderNow sent them to the client;
       None while the header is unwritten *)
}.

Definition abortIndex : Z := 63.

(** A fresh context for a request: status 200, nothing written, index -1. *)
Definition NewContext (r : http.Request) : Context :=
  mkContext r http.StatusOK [] [] ∅ (-1) [] None.

Definition set_Status (code : Z) (c : Context) : Context :=
  mkContext (Request c) code (Written c) (Header c) (Keys c) (index c) (Log c)
    (Sent c).
Definition set_Written (b : list JSON) (c : Context) : Context :=
  mkContext (Request c) (Status c) b (Header c) (Keys c) (index c) (Log c)
    (Sent c).
Definition set_Header (h : list http.HeaderField) (c : Context) : Context :=
  mkContext (Request c) (Status c) (Written c) h (Keys c) (index c) (Log c)
    (Sent c).
Definition set_Keys (k : gmap string Value) (c : Context) : Context :=
  mkContext (Request c) (Status c) (Written c) (Header c) k (index c) (Log c)
    (Sent c).
Definition set_index (i : Z) (c : Context) : Context :=
  mkContext (Request c) (Status c) (Written c) (Header c) (Keys c) i (Log c)
    (Sent c).
Definition set_Log (l : list (Level * Z)) (c : Context) : Context :=
  mkContext (Request c) (Status c) (Written c) (Header c) (Keys c) (index c) l
    (Sent c).
Definition set_Sent (x : option (Z * list http.HeaderField)) (c : Context)
    : Context :=
  mkContext (Request c) (Status c) (Written c) (Header c) (Keys c) (index c)
    (Log c) x.

(** [c.Writer.WriteHeaderNow()]: if the header is unwritten, send the status
    and the header as they are now; what is set afterwards on [c.Writer]
    (another status, a cookie) no longer reaches the client. *)
Definition WriteHeaderNow (c : Context) : Context :=
  match Sent c with
  | Some _ => c
  | None => set_Sent (Some (Status c, Header c)) c
  end.

Definition Abort (c : Context) : Context := set_index abortIndex c.
Definition IsAborted (c : Context) : bool := (abortIndex <=? index c)%Z.

(** [c.JSON(code, obj)]: set the status and write the body, which writes
    the header first if it is unwritten (the statuses used here all allow a
    body). *)
Definition JSON_ (code : Z) (obj : JSON) (c : Context) : Context :=
  let c := WriteHeaderNow (set_Status code c) in
  set_Written (Written c ++ [obj]) c.

(** [c.AbortWithStatus(code)]:
    [c.Status(code); c.Writer.WriteHeaderNow(); c.Abort()]. *)
Definition AbortWithStatus (code : Z) (c : Context) : Context :=
  Abort (WriteHeaderNow (set_Status code c)).

Definition AbortWithStatusJSON (code : Z) (obj : JSON) (c : Context) : Context :=
  JSON_ code obj (Abort c).

Definition Set_ (key : string) (v : Value) (c : Context) : Context :=
  set_Keys (<[key := v]> (Keys c)) c.

(** [c.Value(key)] for a string key is [c.Get(key)]; [None] is a nil
    interface. *)
Definition Value_ (key : string) (c : Context) : option Value :=
  Keys c !! key.

Definition Header_ (key value : string) (c : Context) : Context :=
  set_Header (Header c ++ [http.Field key value]) c.

(** [c.BindJSON(&u)] with [u] a nil [*model.User]: the pointer after the
    call, and the context. On a binding error gin itself aborts the request
    with status 400 (its [MustBindWith] calls [AbortWithError], which sends
    the 400 at once) and returns the error to the caller. *)
Definition BindJSON (c : Context) : option model.User * Context :=
  match http.ReqBody (Request c) with
  | http.JSONUser u => (Some u, c)
  | http.JSONNull => (None, c)
  | http.JSONMalformed => (None, AbortWithStatus http.StatusBadRequest c)
  | http.JSONMismatch u => (Some u, AbortWithStatus http.StatusBadRequest c)
  end.

(** How a handler ends: it returns, or it panics; either way the context and
    the world [W] behind the server are what it made of them. *)
Inductive Outcome (W : Type) :=
| Ret (c : Context) (w : W)
| Panic (p : panic) (c : Context) (w : W).
Arguments Ret {W} c w.
Arguments Panic {W} p c w.

Definition context_of {W : Type} (o : Outcome W) : Context :=
  match o with Ret c _ => c | Panic _ c _ => c end.
Definition world_of {W : Type} (o : Outcome W) : W :=
  match o with Ret _ w => w | Panic _ _ w => w end.

(** The status a handler that returned leaves for the response. *)
Definition StatusOf {W : Type} (o : Outcome W) : option Z :=
  match o with Ret c _ => Some (Status c) | Panic _ _ _ => None end.

(** The handler chain returned, leaving this status, response header and
    body, these context keys, and the world [w]. *)
Definition Returns {W : Type} (o : Outcome W) (code : Z)
    (header : list http.HeaderField) (body : list JSON)
    (keys : gmap string Value) (w : W) : Prop :=
  exists c, o = Ret c w /\ Status c = code /\ Header c = header
            /\ Written c = body /\ Keys c = keys.

Definition Run (W : Type) : Type := Context -> W -> Outcome W.

(** [run] keeps a property of the world, however it ends. *)
Definition preserves {W : Type} (P : W -> Prop) (run : Run W) : Prop :=
forall c w, P w -> P (world_of (run c w)).

(** A handler receives [c.Next] (the rest of the chain) as its first
    argument. *)
Definition HandlerFunc (W : Type) : Type := Run W -> Run W.

Definition incr (c : Context) : Context := set_index (index c + 1) c.

(** The loop of [c.Next()], [n] being [len(c.handlers)] and [hs] the
    handlers from [c.index] on:
    [for c.index < len(c.handlers) { c.handlers[c.index](c); c.index++ }]. *)
Fixpoint loop {W : Type} (n : Z) (hs : list (HandlerFunc W)) : Run W :=
  fun c w =>
    match hs with
    | [] => Ret c w
    | h :: rest =>
        if (index c <? n)%Z then
          match h (fun c0 w0 => loop n rest (incr c0) w0) c w with
          | Ret c' w' => loop n rest (incr c') w'
          | Panic p c' w' => Panic p c' w'
          end
        else Ret c w
    end.

(** Serving a request: a fresh context, [c.Next()] over the route's chain,
    and when the chain returns the engine's [WriteHeaderNow], which sends the
    header if no handler wrote it. *)
Definition ServeHTTP {W : Type} (hs : list (HandlerFunc W))
    (r : http.Request) (w : W) : Outcome W :=
  match loop (Z.of_nat (length hs)) hs (incr (NewContext r)) w with
  | Ret c w' => Ret (WriteHeaderNow c) w'
  | Panic p c w' => Panic p c w'
  end.

End gin.

(** ** package store: the interfaces the handlers call *)
Module store.

(** How [Create(u)] ends for a [*model.User] that may be nil: a nil error
    (with the pointee as [Create] left it), an error, or a panic. *)
Inductive CreateResult (W : Type) :=
| Created (u : option model.User) (w : W)
| CreateFailed (e : error) (w : W)
| CreatePanicked (p : panic) (w : W).
Arguments Created {W} u w.
Arguments CreateFailed {W} e w.
Arguments CreatePanicked {W} p w.

Definition world_after {W : Type} (res : CreateResult W) : W :=
match res with
| Created _ w | CreateFailed _ w | CreatePanicked _ w => w
end.

(** The [UserRepository] interface, [R] being the repository value the
    methods are called on and [W] the world they act on. *)
Record UserRepository (W R : Type) := {
  Create : R -> option model.User -> W -> CreateResult W;
  Find : R -> Z -> W -> model.User + error;
  FindByEmail : R -> string -> W -> model.User + error
}.
Arguments Create {W R} _ _ _ _.
Arguments Find {W R} _ _ _ _.
Arguments FindByEmail {W R} _ _ _ _.

(** Modelled from the spec: the [Store] interface (its declaration is not
    among the sources), which exposes the repository through [User()]. *)
Record Store (W R : Type) := {
  User : W -> R * W;
  Repository : UserRepository W R
}.
Arguments User {W R} _ _.
Arguments Repository {W R} _.

End store.

(** ** package sqlstore *)
Module sqlstore.

Definition ptr := nat.

(** Modelled from the spec: the [users] table (id, unique email,
    encrypted_password) behind [*sqlx.DB], with the next serial id. *)
Record Row := mkRow {
  row_id : Z;
  row_email : string;
  row_encrypted_password : string
}.
Record DB := mkDB { users : list Row; next_id : Z }.

Definition emptyDB : DB := mkDB [] 1.

Record UserRepository := mkUserRepository { store : ptr }.

Record Store := mkStore {
  db : DB;
  userRepository : option ptr      (* nil until the first User() *)
}.

(** The heap as far as one [Store] sees it: the store [this] at address
    [self], and the [UserRepository] objects allocated so far, addressed by
    position. *)
Record Heap := mkHeap {
  self : ptr;
  this : Store;
  repositories : list UserRepository
}.

Definition New (a : ptr) (d : DB) : Heap :=
  mkHeap a (mkStore d None) [].

Definition User (h : Heap) : ptr * Heap :=
  match userRepository (this h) with
  | Some r => (r, h)
  | None =>
      let r := length (repositories h) in
      (r, mkHeap (self h) (mkStore (db (this h)) (Some r))
                 (repositories h ++ [mkUserRepository (self h)]))
  end.

Definition set_db (d : DB) (h : Heap) : Heap :=
  mkHeap (self h) (mkStore d (userRepository (this h))) (repositories h).

(** [r.store.db] *)
Definition db_of (r : ptr) (h : Heap) : option DB :=
  match repositories h !! r with
  | Some ro => if Nat.eqb (store ro) (self h) then Some (db (this h)) else None
  | None => None
  end.

Section Repository.
Variable hasher : model.Hasher.
Variable IsEmail : string -> bool.

Definition user_of_row (r : Row) : model.User :=
  model.mkUser (row_id r) (row_email r) "" (row_encrypted_password r).

Definition has_email (email : string) (r : Row) : bool :=
  String.eqb (row_email r) email.

(** Modelled from the spec: [Create] runs validation and password
    derivation, inserts a row and populates the id; it fails with
    [ValidationError], with [ConflictError] when the email exists, and
    with an internal error when hashing fails. *)
Definition insert (u : model.User) (d : DB) : (model.User * DB) + error :=
  if negb (model.Validate IsEmail u) then inr ValidationError
  else match model.BeforeCreate hasher u with
       | None => inr InternalError
       | Some u1 =>
           if existsb (has_email (model.Email u1)) (users d)
           then inr ConflictError
           else inl (model.mkUser (next_id d) (model.Email u1)
                       (model.Password u1) (model.EncryptedPassword u1),
                     mkDB (users d ++ [mkRow (next_id d) (model.Email u1)
                                         (model.EncryptedPassword u1)])
                          (next_id d + 1)%Z)
       end.

(** The emails of the table, and how many rows hold a given one. *)
Definition emails (d : DB) : list string := map row_email (users d).

Definition count_email (email : string) (d : DB) : nat :=
  length (List.filter (has_email email) (users d)).

(** Modelled from the spec: [FindByID] and [FindByEmail] fail with
    [NotFoundError] when no row matches. *)
Definition select_id (id : Z) (d : DB) : model.User + error :=
  match List.find (fun r => Z.eqb (row_id r) id) (users d) with
  | Some r => inl (user_of_row r)
  | None => inr NotFoundError
  end.

Definition select_email (email : string) (d : DB) : model.User + error :=
  match List.find (has_email email) (users d) with
  | Some r => inl (user_of_row r)
  | None => inr NotFoundError
  end.

(** Modelled from the spec: the methods of [*UserRepository]; a nil user
    panics at the first field read of validation. *)
Definition Create (r : ptr) (u : option model.User) (h : Heap)
    : store.CreateResult Heap :=
  match u, db_of r h with
  | Some u, Some d =>
      match insert u d with
      | inl (u', d') => store.Created (Some u') (set_db d' h)
      | inr e => store.CreateFailed e h
      end
  | _, _ => store.CreatePanicked NilDereference h
  end.

Definition Find (r : ptr) (id : Z) (h : Heap) : model.User + error :=
  match db_of r h with
  | Some d => select_id id d
  | None => inr StoreError
  end.

Definition FindByEmail (r : ptr) (email : string) (h : Heap)
    : model.User + error :=
  match db_of r h with
  | Some d => select_email email d
  | None => inr StoreError
  end.

(** [*sqlstore.Store] as a [store.Store]. *)
Definition AsStore : store.Store Heap ptr := {|
  store.User := User;
  store.Repository := {|
    store.Create := Create;
    store.Find := Find;
    store.FindByEmail := FindByEmail
  |}
|}.

(** The tables [Create] can produce from the empty one. *)
Inductive reachable : DB -> Prop :=
| reachable_empty : reachable emptyDB
| reachable_insert d u u' d' :
    reachable d -> insert u d = inl (u', d') -> reachable d'.

End Repository.

End sqlstore.

(** ** package apiserver *)
Module apiserver.

Definition sessionName : string := "go".

Definition errIncorrectEmailOrPassword : string := "incorrect email or password".
Definition errInternalServerError : string := "internal server error".
Definition errNotAuthenticated : string := "not authenticated".
Definition errBadRequest : string := "bad request".

Section Server.
Context {W R : Type}.
Variable hasher : model.Hasher.

Record server := mkServer {
  store : store.Store W R;
  sessionStore : sessions.Store;
  ReadTimeout : Z;     (* seconds *)
  WriteTimeout : Z;
  IdleTimeout : Z
}.

Definition NewServer (st : store.Store W R) (ss : sessions.Store) : server :=
  mkServer st ss 5 10 120.

Definition respondWithError (c : gin.Context) (code : Z) (message : string)
    : gin.Context :=
  gin.AbortWithStatusJSON code (gin.H [("error", message)]) c.

Definition AuthenticationUser (s : server) : gin.HandlerFunc W :=
  fun Next c w =>
    let '(session, err) :=
      sessions.Get (sessionStore s) (gin.Request c) sessionName in
    match err with
    | Some _ =>
        gin.Ret (respondWithError c http.StatusInternalServerError
                   errInternalServerError) w
    | None =>
        match sessions.Values session !! "user_id" with
        | None =>
            gin.Ret (respondWithError c http.StatusUnauthorized
                       errNotAuthenticated) w
        | Some id =>
            let '(r, w) := store.User (store s) w in
            match id with
            | VInt n =>
                match store.Find (store.Repository (store s)) r n w with
                | inr _ =>
                    gin.Ret (respondWithError c http.StatusUnauthorized
                               errNotAuthenticated) w
                | inl u => Next (gin.Set_ "ctxKeyUser" (VUser u) c) w
                end
            | _ => gin.Panic (InterfaceConversion "int") c w
            end
        end
    end.

(** The [gin.H] literal of [handleUsersCreate], read off the record. *)
Definition usersCreated (u : model.User) : gin.JSON :=
  gin.H [("email", model.Email u);
         ("encrypted_password", model.EncryptedPassword u)].

(** The body of [handleUsersCreate]: how it ends, and the user record as it
    is when the response is serialized ([None] when it does not get there). *)
Definition usersCreate (s : server) (c : gin.Context) (w : W)
    : gin.Outcome W * option model.User :=
  let '(u, c) := gin.BindJSON c in
  let '(r, w) := store.User (store s) w in
  match store.Create (store.Repository (store s)) r u w with
  | store.CreatePanicked p w => (gin.Panic p c w, None)
  | store.CreateFailed _ w =>
      (gin.Ret (respondWithError c http.StatusBadRequest errBadRequest) w, None)
  | store.Created u' w =>
      (* [u] is still the pointer [BindJSON] set, [u'] what it points
         to after [Create]; [u.Sanitize()] writes through it *)
      match u, u' with
      | Some _, Some u =>
          let u := model.Sanitize u in
          (gin.Ret (gin.JSON_ http.StatusOK (usersCreated u) c) w, Some u)
      | _, _ => (gin.Panic NilDereference c w, None)
      end
  end.

Definition handleUsersCreate (s : server) : gin.HandlerFunc W :=
  fun _ c w => fst (usersCreate s c w).

Definition handleSessionsCreate (s : server) : gin.HandlerFunc W :=
  fun _ c w =>
    let '(req, c) := gin.BindJSON c in
    let '(r, w) := store.User (store s) w in
    match req with
    | None => gin.Panic NilDereference c w
    | Some req =>
        let found :=
          store.FindByEmail (store.Repository (store s)) r (model.Email req) w in
        match found with
        | inr _ =>
            gin.Ret (respondWithError c http.StatusUnauthorized
                       errIncorrectEmailOrPassword) w
        | inl u =>
            if negb (model.ComparePasswords hasher u (model.Password req))
            then gin.Ret (respondWithError c http.StatusUnauthorized
                            errIncorrectEmailOrPassword) w
            else
              let '(session, err) :=
                sessions.Get (sessionStore s) (gin.Request c) "go" in
              match err with
              | Some _ =>
                  gin.Ret (respondWithError c http.StatusInternalServerError
                             errInternalServerError) w
              | None =>
                  let session :=
                    sessions.mkSession (sessions.Name session)
                      (<["user_id" := VInt (model.ID u)]> (sessions.Values session))
                      (sessions.IsNew session) in
                  let '(h, err) :=
                    sessions.Save (sessionStore s) (gin.Request c)
                      (gin.Header c) session in
                  let c := gin.set_Header h c in
                  match err with
                  | Some _ =>
                      gin.Ret (respondWithError c http.StatusInternalServerError
                                 errInternalServerError) w
                  | None => gin.Ret c w
                  end
              end
        end
    end.

Definition logLevel (status : Z) : gin.Level :=
  if (500 <=? status)%Z then gin.ErrorLevel
  else if (400 <=? status)%Z then gin.WarnLevel
  else gin.InfoLevel.

Definition logRequest : gin.HandlerFunc W :=
  fun Next c w =>
    match Next c w with
    | gin.Ret c w =>
        gin.Ret (gin.set_Log (gin.Log c ++ [(logLevel (gin.Status c), gin.Status c)]) c) w
    | gin.Panic p c w => gin.Panic p c w
    end.

(** [id] is the [uuid.New().String()] of this request. *)
Definition SetRequestID (id : string) : gin.HandlerFunc W :=
  fun Next c w =>
    Next (gin.Set_ "ctxKeyRequestID" (VString id)
            (gin.Header_ "X-Request-ID" id c)) w.

Definition getMyUserInfo : gin.HandlerFunc W :=
  fun _ c w =>
    match gin.Value_ "ctxKeyUser" c with
    | Some (VUser u) => gin.Ret (gin.JSON_ http.StatusOK (gin.JUser u) c) w
    | _ => gin.Panic (InterfaceConversion "*model.User") c w
    end.

(** The routes of [configureRouter], each with the chain gin runs for it:
    the router's middleware, the group's, then the handler. (The CORS
    middleware and those of [gin.Default] are the libraries' and not part
    of the chain here.) *)
Inductive Route := POST_users | POST_sessions | GET_private_whoami.

Definition configureRouter (s : server) (id : string) (route : Route)
    : list (gin.HandlerFunc W) :=
  [SetRequestID id; logRequest] ++
  match route with
  | POST_users => [handleUsersCreate s]
  | POST_sessions => [handleSessionsCreate s]
  | GET_private_whoami => [AuthenticationUser s; getMyUserInfo]
  end.

Definition ServeHTTP (s : server) (id : string) (route : Route)
    (r : http.Request) (w : W) : gin.Outcome W :=
  gin.ServeHTTP (configureRouter s id route) r w.

End Server.

End apiserver.

(** ** Fixtures: a hasher, an email syntax, a cookie codec and a server over
    the SQL store, for running the handlers on concrete requests *)
Module fixture.

Definition hasher : model.Hasher := {|
  model.Hash := fun p => Some (String.append "$2a$" p);
  model.Verify := fun d p => String.eqb d (String.append "$2a$" p)
|}.

Fixpoint contains (a : ascii) (s : string) : bool :=
  match s with
  | EmptyString => false
  | String b rest => Ascii.eqb a b || contains a rest
  end.

Definition IsEmail (s : string) : bool := contains "@"%char s.

Fixpoint unary (n : nat) : string :=
  match n with
  | O => EmptyString
  | S m => String "i"%char (unary m)
  end.

Definition key : string := "k3y".

(** A cookie value: the session name, the user id in unary, the key. *)
Definition seal (name : string) (n : nat) : string :=
  String.append name (String.append "|" (String.append (unary n) (String.append "|" key))).

(** The codec encodes a payload that is exactly one non-negative
    ["user_id"]; it decodes by re-encoding and comparing, so a value it did
    not produce is rejected. *)
Definition codec : cookie.Codec := {|
  cookie.Encode := fun name vals =>
    match map_to_list vals with
    | [(k, VInt n)] =>
        if String.eqb k "user_id" && (0 <=? n)%Z
        then Some (seal name (Z.to_nat n)) else None
    | _ => None
    end;
  cookie.Decode := fun name v =>
    let n := (String.length v - (String.length name + String.length key + 2))%nat in
    if String.eqb v (seal name n)
    then Some {[ "user_id" := VInt (Z.of_nat n) ]}
    else None
|}.

Definition srv : @apiserver.server sqlstore.Heap sqlstore.ptr :=
  apiserver.NewServer (sqlstore.AsStore hasher IsEmail) (cookie.NewStore codec).

Definition serve := apiserver.ServeHTTP hasher srv "req-id".

(** The world after [POST /users] with the test user on an empty table. *)
Definition registration : http.Request :=
  http.mkRequest (http.JSONUser model.TestUser) [].

Definition registered : sqlstore.Heap :=
  Eval vm_compute in
    gin.world_of (serve apiserver.POST_users registration
                    (sqlstore.New 0 sqlstore.emptyDB)).

Definition registered_response : gin.Context :=
  Eval vm_compute in
    gin.context_of (serve apiserver.POST_users registration
                      (sqlstore.New 0 sqlstore.emptyDB)).

(** [POST /sessions] with the test user's credentials, then the cookie the
    client received. *)
Definition login : http.Request :=
  http.mkRequest (http.JSONUser model.TestUser) [].

Definition issued : list (string * string) :=
  Eval vm_compute in
    http.SetCookies
      (gin.Header
         (gin.context_of (serve apiserver.POST_sessions login registered))).

Definition whoami (cookies : list (string * string)) : http.Request :=
  http.mkRequest http.JSONNull cookies.

(** Bodies that [BindJSON] reports an error for: one that is not JSON, and
    the test user's email and password next to a field of the wrong type. *)
Definition malformed : http.Request :=
  http.mkRequest http.JSONMalformed [].

Definition mismatch_registration : http.Request :=
  http.mkRequest (http.JSONMismatch model.TestUser) [].


(** The request of the test user, presenting a cookie the codec rejects. *)
Definition stale_login : http.Request :=
  http.mkRequest (http.JSONUser model.TestUser) [("go", "stale")].

(** A repository over the same table whose [Create] checks its argument and
    returns an error for a nil user, and a server over it. *)
Definition strict : store.Store sqlstore.Heap sqlstore.ptr := {|
  store.User := sqlstore.User;
  store.Repository := {|
    store.Create := fun r u h =>
      match u with
      | None => store.CreateFailed ValidationError h
      | Some _ => sqlstore.Create hasher IsEmail r u h
      end;
    store.Find := sqlstore.Find;
    store.FindByEmail := sqlstore.FindByEmail
  |}
|}.

Definition strict_srv : @apiserver.server sqlstore.Heap sqlstore.ptr :=
  apiserver.NewServer strict (cookie.NewStore codec).

(** A session store whose sessions carry a ["user_id"] that is a string. *)
Definition odd_sessions : sessions.Store := {|
  sessions.Get := fun _ name =>
    (sessions.mkSession name {[ "user_id" := VString "1" ]} false, None);
  sessions.Save := fun _ h _ => (h, None)
|}.

Definition odd_srv : @apiserver.server sqlstore.Heap sqlstore.ptr :=
  apiserver.NewServer (sqlstore.AsStore hasher IsEmail) odd_sessions.

End fixture.

(** ** The failure cases of the authentication middleware *)
Section AuthFailure.
Context {W R : Type}.

(** [auth_failure s r w code message w']: on request [r] in world [w] the
    session cannot be read ([500]), or it carries no user identifier, or the
    repository does not find the user ([401]); [w'] is the world then. *)
Inductive auth_failure (s : @apiserver.server W R) (r : http.Request) (w : W)
  : Z -> string -> W -> Prop :=
| session_read_fails sess e :
    sessions.Get (apiserver.sessionStore s) r apiserver.sessionName
      = (sess, Some e) ->
    auth_failure s r w http.StatusInternalServerError
      apiserver.errInternalServerError w
| session_without_user sess :
    sessions.Get (apiserver.sessionStore s) r apiserver.sessionName
      = (sess, None) ->
    sessions.Values sess !! "user_id" = None ->
    auth_failure s r w http.StatusUnauthorized apiserver.errNotAuthenticated w
| user_lookup_fails sess n rp w1 e :
    sessions.Get (apiserver.sessionStore s) r apiserver.sessionName
      = (sess, None) ->
    sessions.Values sess !! "user_id" = Some (VInt n) ->
    store.User (apiserver.store s) w = (rp, w1) ->
    store.Find (store.Repository (apiserver.store s)) rp n w1 = inr e ->
    auth_failure s r w http.StatusUnauthorized apiserver.errNotAuthenticated w1.

(** [authenticated s r w u w1]: the session of [r] is read without error
    and carries an integer ["user_id"] under which the repository finds [u];
    [w1] is the world then. *)
Definition authenticated (s : @apiserver.server W R) (r : http.Request) (w : W)
  (u : model.User) (w1 : W) : Prop :=
exists sess n rp,
  sessions.Get (apiserver.sessionStore s) r apiserver.sessionName = (sess, None)
  /\ sessions.Values sess !! "user_id" = Some (VInt n)
  /\ store.User (apiserver.store s) w = (rp, w1)
  /\ store.Find (store.Repository (apiserver.store s)) rp n w1 = inl u.

(** [mistyped s r w w1]: the session is read without error and its
    ["user_id"] is not an [int]. *)
Definition mistyped (s : @apiserver.server W R) (r : http.Request) (w w1 : W)
  : Prop :=
exists sess v,
  sessions.Get (apiserver.sessionStore s) r apiserver.sessionName = (sess, None)
  /\ sessions.Values sess !! "user_id" = Some v
  /\ (forall n, v <> VInt n)
  /\ w1 = snd (store.User (apiserver.store s) w).

End AuthFailure.

(** * Every route on every request *)

(** The pointer [BindJSON] leaves in a nil [*model.User], and whether it
    reports an error, by the body. *)
Definition body_pointer (b : http.Body) : option model.User :=
match b with
| http.JSONUser u | http.JSONMismatch u => Some u
| http.JSONNull | http.JSONMalformed => None
end.

Definition bind_fails (b : http.Body) : bool :=
match b with
| http.JSONUser _ | http.JSONNull => false
| http.JSONMalformed | http.JSONMismatch _ => true
end.

(** The status when a handler that called [BindJSON] goes on: 400 if gin
    aborted the request on a binding error, the initial 200 otherwise. *)
Definition bound_status (b : http.Body) : Z :=
if bind_fails b then http.StatusBadRequest else http.StatusOK.

(** What the client has been sent when a handler that called [BindJSON]
    goes on: on a binding error the 400 with the header as it was then. *)
Definition bound_sent (b : http.Body) (header : list http.HeaderField)
  : option (Z * list http.HeaderField) :=
if bind_fails b then Some (http.StatusBadRequest, header) else None.

(** The chain returned: status, header, body and keys as given; [sent] is
    the status line and header the client received (those of the first
    write), and the request logger wrote its one completion line for the
    status. *)
Definition Completes {W : Type} (o : gin.Outcome W) (code : Z)
  (header : list http.HeaderField) (body : list gin.JSON)
  (keys : gmap string Value) (sent : Z * list http.HeaderField) (w : W) : Prop :=
exists c, o = gin.Ret c w /\ gin.Status c = code /\ gin.Header c = header
          /\ gin.Written c = body /\ gin.Keys c = keys
          /\ gin.Log c = [(apiserver.logLevel code, code)]
          /\ gin.Sent c = Some sent.

(** The chain panicked, with no body written and no completion line. *)
Definition Panics {W : Type} (o : gin.Outcome W) (p : panic) (code : Z)
  (header : list http.HeaderField) (keys : gmap string Value)
  (sent : option (Z * list http.HeaderField)) (w : W) : Prop :=
exists c, o = gin.Panic p c w /\ gin.Status c = code /\ gin.Header c = header
          /\ gin.Written c = [] /\ gin.Keys c = keys /\ gin.Log c = []
          /\ gin.Sent c = sent.

(** * Properties *)

(** ** The handler chain *)

Ltac gin_cbn :=
  cbn [gin.index gin.Status gin.Written gin.Header gin.Keys gin.Log gin.Request
       gin.set_Status gin.set_Written gin.set_Header gin.set_Keys gin.set_index
       gin.set_Log gin.Abort gin.JSON_ gin.AbortWithStatus gin.AbortWithStatusJSON
       gin.Set_ gin.Header_ gin.incr gin.NewContext gin.Value_
       gin.Sent gin.set_Sent gin.WriteHeaderNow
       apiserver.respondWithError apiserver.usersCreated app length fst snd].

Ltac index_lia := gin_cbn; unfold gin.abortIndex; lia.

Section Chain.
Context {W : Type}.
Implicit Types (h : gin.HandlerFunc W) (c : gin.Context) (w : W).

Lemma loop_nil n c w : gin.loop (W:=W) n [] c w = gin.Ret c w.
Proof. reflexivity. Qed.

Lemma loop_cons_lt n h rest c w :
  (gin.index c < n)%Z ->
  gin.loop n (h :: rest) c w =
  match h (fun c0 w0 => gin.loop n rest (gin.incr c0) w0) c w with
  | gin.Ret c' w' => gin.loop n rest (gin.incr c') w'
  | gin.Panic p c' w' => gin.Panic p c' w'
  end.
Proof.
  intros Hlt. cbn [gin.loop].
  destruct (Z.ltb_spec (gin.index c) n); [reflexivity | lia].
Qed.

(** Past the end of the chain, or aborted: nothing more runs. *)
Lemma loop_ge n (hs : list (gin.HandlerFunc W)) c w :
  (n <= gin.index c)%Z -> gin.loop n hs c w = gin.Ret c w.
Proof.
  intros Hge. destruct hs as [|h rest]; cbn [gin.loop]; [reflexivity|].
  destruct (Z.ltb_spec (gin.index c) n); [lia | reflexivity].
Qed.

End Chain.

Ltac chain_lt := rewrite loop_cons_lt by index_lia; cbv beta iota zeta.
Ltac chain_ge := rewrite loop_ge by index_lia; cbv beta iota zeta.
Ltac chain_end := rewrite loop_nil; cbv beta iota zeta.
Ltac chain_out := repeat first [chain_end | chain_ge].

(** Enter a route: through [SetRequestID] and [logRequest] to the route's
    own handlers. *)
Ltac enter_route :=
  unfold apiserver.ServeHTTP, gin.ServeHTTP, apiserver.configureRouter;
  gin_cbn;
  chain_lt; unfold apiserver.SetRequestID at 1;
  chain_lt; unfold apiserver.logRequest at 1;
  chain_lt.

Ltac completes_here :=
  unfold Completes; eexists; split; [reflexivity|]; gin_cbn;
  repeat split; reflexivity.

Ltac panics_here :=
  unfold Panics; eexists; split; [reflexivity|]; gin_cbn;
  repeat split; reflexivity.

(** Close a goal on a chain evaluated up to the handler's outcome. *)
Ltac ends_here :=
  lazymatch goal with
  | |- Panics _ _ _ _ _ _ _ => abstract panics_here
  | |- Completes _ _ _ _ _ _ _ => chain_out; abstract completes_here
  end.

Section AllRequests.
Context {W R : Type}.
Variable hasher : model.Hasher.
Variable s : @apiserver.server W R.
Variables (id : string) (r : http.Request) (w : W).

Let request_keys : gmap string Value :=
  <["ctxKeyRequestID" := VString id]> ∅.
Let request_header : list http.HeaderField :=
  [http.Field "X-Request-ID" id].
Let error_body (message : string) : list gin.JSON :=
  [gin.H [("error", message)]].

(** [GET /private/whoami], whatever the request. *)
Lemma whoami_all :
let o := apiserver.ServeHTTP hasher s id apiserver.GET_private_whoami r w in
match sessions.Get (apiserver.sessionStore s) r apiserver.sessionName with
| (_, Some _) =>
    Completes o 500 request_header
      (error_body apiserver.errInternalServerError) request_keys
      (500%Z, request_header) w
| (sess, None) =>
    match sessions.Values sess !! "user_id" with
    | None =>
        Completes o 401 request_header
          (error_body apiserver.errNotAuthenticated) request_keys
          (401%Z, request_header) w
    | Some v =>
        let '(rp, w1) := store.User (apiserver.store s) w in
        match v with
        | VInt n =>
            match store.Find (store.Repository (apiserver.store s)) rp n w1 with
            | inr _ =>
                Completes o 401 request_header
                  (error_body apiserver.errNotAuthenticated) request_keys
                  (401%Z, request_header) w1
            | inl u =>
                Completes o 200 request_header [gin.JUser u]
                  (<["ctxKeyUser" := VUser u]> request_keys)
                  (200%Z, request_header) w1
            end
        | _ =>
            Panics o (InterfaceConversion "int") 200 request_header
              request_keys None w1
        end
    end
end.
Proof.
intros o. unfold request_header, request_keys, error_body.
destruct (sessions.Get _ r _) as [sess [e|]] eqn:HG;
  [| destruct (sessions.Values sess !! "user_id") as [v|] eqn:HV;
     [ destruct (store.User _ w) as [rp w1] eqn:HU;
       destruct v as [n|?|?];
       [ destruct (store.Find _ rp n w1) as [u|e] eqn:HF | | ] | ] ];
  subst o; enter_route;
  unfold apiserver.AuthenticationUser at 1; gin_cbn;
  rewrite HG; cbv beta iota zeta;
  try (rewrite HV; cbv beta iota zeta; try (rewrite HU; cbv beta iota zeta));
  try (rewrite HF; cbv beta iota zeta).
- chain_out. abstract completes_here.
- chain_lt. unfold apiserver.getMyUserInfo at 1, gin.Value_. gin_cbn.
  rewrite lookup_insert_eq. cbv beta iota zeta.
  chain_out. abstract completes_here.
- chain_out. abstract completes_here.
- abstract panics_here.
- abstract panics_here.
- chain_out. abstract completes_here.
Qed.

(** [POST /users], whatever the body. *)
Lemma users_all :
let o := apiserver.ServeHTTP hasher s id apiserver.POST_users r w in
let b := http.ReqBody r in
let '(rp, w1) := store.User (apiserver.store s) w in
match store.Create (store.Repository (apiserver.store s)) rp
        (body_pointer b) w1 with
| store.CreatePanicked p w2 =>
    Panics o p (bound_status b) request_header request_keys
      (bound_sent b request_header) w2
| store.CreateFailed _ w2 =>
    Completes o 400 request_header (error_body apiserver.errBadRequest)
      request_keys (400%Z, request_header) w2
| store.Created u' w2 =>
    match body_pointer b, u' with
    | Some _, Some u =>
        Completes o 200 request_header
          [gin.H [("email", model.Email u);
                  ("encrypted_password", model.EncryptedPassword u)]]
          request_keys (bound_status b, request_header) w2
    | _, _ =>
        Panics o NilDereference (bound_status b) request_header request_keys
          (bound_sent b request_header) w2
    end
end.
Proof.
intros o b. subst b.
unfold request_header, request_keys, error_body, bound_status, bound_sent.
destruct (http.ReqBody r) as [u0| | |u0] eqn:Hbody;
  cbn [body_pointer bind_fails];
  destruct (store.User _ w) as [rp w1] eqn:HU;
  destruct (store.Create _ rp _ w1) as [[u|] w2|e w2|p w2] eqn:HC;
  cbv beta iota zeta;
  subst o; enter_route;
  unfold apiserver.handleUsersCreate at 1, apiserver.usersCreate, gin.BindJSON;
  gin_cbn;
  rewrite Hbody, HU; cbv beta iota zeta; rewrite HC; cbv beta iota zeta;
  cbn [fst]; ends_here.
Qed.

(** [POST /sessions], whatever the body. *)
Lemma sessions_all :
let o := apiserver.ServeHTTP hasher s id apiserver.POST_sessions r w in
let b := http.ReqBody r in
let '(rp, w1) := store.User (apiserver.store s) w in
match body_pointer b with
| None =>
    Panics o NilDereference (bound_status b) request_header request_keys
      (bound_sent b request_header) w1
| Some req =>
    match store.FindByEmail (store.Repository (apiserver.store s)) rp
            (model.Email req) w1 with
    | inr _ =>
        Completes o 401 request_header
          (error_body apiserver.errIncorrectEmailOrPassword) request_keys
          (if bind_fails b then 400%Z else 401%Z, request_header) w1
    | inl u =>
        if model.ComparePasswords hasher u (model.Password req) then
          match sessions.Get (apiserver.sessionStore s) r "go" with
          | (_, Some _) =>
              Completes o 500 request_header
                (error_body apiserver.errInternalServerError) request_keys
                (if bind_fails b then 400%Z else 500%Z, request_header) w1
          | (sess, None) =>
              match sessions.Save (apiserver.sessionStore s) r request_header
                      (sessions.mkSession (sessions.Name sess)
                         (<["user_id" := VInt (model.ID u)]> (sessions.Values sess))
                         (sessions.IsNew sess)) with
              | (h, Some _) =>
                  Completes o 500 h
                    (error_body apiserver.errInternalServerError) request_keys
                    (if bind_fails b then (400%Z, request_header)
                     else (500%Z, h)) w1
              | (h, None) =>
                  Completes o (bound_status b) h [] request_keys
                    (if bind_fails b then (400%Z, request_header)
                     else (200%Z, h)) w1
              end
          end
        else
          Completes o 401 request_header
            (error_body apiserver.errIncorrectEmailOrPassword) request_keys
            (if bind_fails b then 400%Z else 401%Z, request_header) w1
    end
end.
Proof.
intros o b. subst b.
unfold request_header, request_keys, error_body, bound_status, bound_sent.
destruct (http.ReqBody r) as [req| | |req] eqn:Hbody;
  cbn [body_pointer bind_fails];
  destruct (store.User _ w) as [rp w1] eqn:HU;
  try (destruct (store.FindByEmail _ rp _ w1) as [u|e] eqn:HF;
       [ destruct (model.ComparePasswords hasher u _) eqn:HP;
         [ destruct (sessions.Get _ r _) as [sess [e|]] eqn:HG;
           [| destruct (sessions.Save _ r _ _) as [h [e|]] eqn:HS ] | ] | ]);
  cbv beta iota zeta;
  subst o; enter_route;
  unfold apiserver.handleSessionsCreate at 1, gin.BindJSON; gin_cbn;
  rewrite Hbody, HU; cbv beta iota zeta;
  try (rewrite HF; cbv beta iota zeta);
  try (rewrite HP; cbn [negb]; cbv beta iota zeta);
  try (gin_cbn; rewrite HG; cbv beta iota zeta);
  try (gin_cbn; rewrite HS; cbv beta iota zeta);
  ends_here.
Qed.

End AllRequests.

Lemma Completes_Returns {W : Type} (o : gin.Outcome W) code header body keys
  sent w :
Completes o code header body keys sent w ->
gin.Returns o code header body keys w.
Proof.
intros (c & Ho & Hs & Hh & Hw & Hk & _). exists c. auto.
Qed.

Lemma Panics_Panic {W : Type} (o : gin.Outcome W) p code header keys sent w :
Panics o p code header keys sent w -> exists c, o = gin.Panic p c w.
Proof. intros (c & Ho & _). exists c. exact Ho. Qed.

Ltac split_cases H :=
  repeat match type of H with
    | context [match ?x with _ => _ end] => destruct x eqn:?
    | context [if ?x then _ else _] => destruct x eqn:?
    end.

Section Whoami.
Context {W R : Type}.
Variable hasher : model.Hasher.
Variable s : @apiserver.server W R.
Variables (id : string) (r : http.Request) (w : W).

Let request_keys : gmap string Value :=
  <["ctxKeyRequestID" := VString id]> ∅.
Let error_body (message : string) : list gin.JSON :=
  [gin.H [("error", message)]].

(** Every run of [GET /private/whoami], by what the session store and the
    repository answer. *)
Lemma whoami_run :
  let o := apiserver.ServeHTTP hasher s id apiserver.GET_private_whoami r w in
  match sessions.Get (apiserver.sessionStore s) r apiserver.sessionName with
  | (_, Some _) =>
      gin.Returns o 500 [http.Field "X-Request-ID" id]
        (error_body apiserver.errInternalServerError) request_keys w
  | (sess, None) =>
      match sessions.Values sess !! "user_id" with
      | None =>
          gin.Returns o 401 [http.Field "X-Request-ID" id]
            (error_body apiserver.errNotAuthenticated) request_keys w
      | Some v =>
          let '(rp, w1) := store.User (apiserver.store s) w in
          match v with
          | VInt n =>
              match store.Find (store.Repository (apiserver.store s)) rp n w1 with
              | inr _ =>
                  gin.Returns o 401 [http.Field "X-Request-ID" id]
                    (error_body apiserver.errNotAuthenticated) request_keys w1
              | inl u =>
                  gin.Returns o 200 [http.Field "X-Request-ID" id]
                    [gin.JUser u]
                    (<["ctxKeyUser" := VUser u]> request_keys) w1
              end
          | _ => exists c, o = gin.Panic (InterfaceConversion "int") c w1
          end
      end
  end.
Proof.
  intros o. subst o.
  pose proof (whoami_all hasher s id r w) as H. cbv zeta in H.
  split_cases H;
    first [ eapply Completes_Returns; exact H | eapply Panics_Panic; exact H ].
Qed.

End Whoami.

Section PublicRoutes.
Context {W R : Type}.
Variable hasher : model.Hasher.
Variable s : @apiserver.server W R.
Variables (id : string) (r : http.Request) (w : W).

Let request_keys : gmap string Value :=
  <["ctxKeyRequestID" := VString id]> ∅.
Let request_header : list http.HeaderField :=
  [http.Field "X-Request-ID" id].
Let error_body (message : string) : list gin.JSON :=
  [gin.H [("error", message)]].

(** Every run of [POST /sessions] on a body that binds to [req]. *)
Lemma sessions_run req :
  http.ReqBody r = http.JSONUser req ->
  let o := apiserver.ServeHTTP hasher s id apiserver.POST_sessions r w in
  let '(rp, w1) := store.User (apiserver.store s) w in
  match store.FindByEmail (store.Repository (apiserver.store s)) rp
          (model.Email req) w1 with
  | inr _ =>
      gin.Returns o 401 request_header
        (error_body apiserver.errIncorrectEmailOrPassword) request_keys w1
  | inl u =>
      if model.ComparePasswords hasher u (model.Password req) then
        match sessions.Get (apiserver.sessionStore s) r "go" with
        | (_, Some _) =>
            gin.Returns o 500 request_header
              (error_body apiserver.errInternalServerError) request_keys w1
        | (sess, None) =>
            match sessions.Save (apiserver.sessionStore s) r request_header
                    (sessions.mkSession (sessions.Name sess)
                       (<["user_id" := VInt (model.ID u)]> (sessions.Values sess))
                       (sessions.IsNew sess)) with
            | (h, Some _) =>
                gin.Returns o 500 h
                  (error_body apiserver.errInternalServerError) request_keys w1
            | (h, None) => gin.Returns o 200 h [] request_keys w1
            end
        end
      else
        gin.Returns o 401 request_header
          (error_body apiserver.errIncorrectEmailOrPassword) request_keys w1
  end.
Proof.
  intros Hbody o. subst o.
  pose proof (sessions_all hasher s id r w) as H. cbv zeta in H.
  rewrite Hbody in H. unfold bound_status in H.
  cbn [body_pointer bind_fails] in H. cbv iota in H.
  unfold request_header, request_keys, error_body.
  split_cases H; eapply Completes_Returns; exact H.
Qed.

(** Every run of [POST /users] on a body that binds to [u0]. *)
Lemma users_run u0 :
  http.ReqBody r = http.JSONUser u0 ->
  let o := apiserver.ServeHTTP hasher s id apiserver.POST_users r w in
  let '(rp, w1) := store.User (apiserver.store s) w in
  match store.Create (store.Repository (apiserver.store s)) rp (Some u0) w1 with
  | store.CreatePanicked p w2 => exists c, o = gin.Panic p c w2
  | store.CreateFailed _ w2 =>
      gin.Returns o 400 request_header
        (error_body apiserver.errBadRequest) request_keys w2
  | store.Created None w2 => exists c, o = gin.Panic NilDereference c w2
  | store.Created (Some u) w2 =>
      gin.Returns o 200 request_header
        [gin.H [("email", model.Email (model.Sanitize u));
                ("encrypted_password",
                 model.EncryptedPassword (model.Sanitize u))]]
        request_keys w2
  end.
Proof.
  intros Hbody o. subst o.
  pose proof (users_all hasher s id r w) as H. cbv zeta in H.
  rewrite Hbody in H. unfold bound_status in H.
  cbn [body_pointer bind_fails] in H. cbv iota in H.
  unfold request_header, request_keys, error_body.
  split_cases H;
    first [ eapply Completes_Returns; exact H | eapply Panics_Panic; exact H ].
Qed.

End PublicRoutes.

(** ** Authentication on [GET /private/whoami] *)

Section Authentication.
Context {W R : Type}.
Variable hasher : model.Hasher.
Variable s : @apiserver.server W R.

(** C3. On [GET /private/whoami], a request whose session cannot be read
    from the session store receives 500 [{"error": "internal server error"}];
    one whose session carries no user identifier (a missing session is a new,
    empty one), or whose user the repository does not find, receives 401
    [{"error": "not authenticated"}]. In each case the error is the whole
    body: the protected handler's user record is not written. *)
Theorem whoami_rejects_unauthenticated id r w code message w' :
  auth_failure s r w code message w' ->
  exists c,
    apiserver.ServeHTTP hasher s id apiserver.GET_private_whoami r w
      = gin.Ret c w'
    /\ gin.Status c = code
    /\ gin.Written c = [gin.H [("error", message)]]
    /\ forall u, gin.JUser u ∉ gin.Written c.
Proof.
  intros Hfail.
  pose proof (whoami_run hasher s id r w) as Hrun. cbv zeta in Hrun.
  assert (Hdone : gin.Returns
                    (apiserver.ServeHTTP hasher s id apiserver.GET_private_whoami r w)
                    code [http.Field "X-Request-ID" id]
                    [gin.H [("error", message)]]
                    (<["ctxKeyRequestID" := VString id]> ∅) w').
  { destruct Hfail as [sess e HG | sess HG HV | sess n rp w1 e HG HV HU HF];
      rewrite HG in Hrun; [exact Hrun | |]; rewrite HV in Hrun;
      [exact Hrun |]; rewrite HU, HF in Hrun; exact Hrun. }
  destruct Hdone as (c & Ho & Hstatus & _ & Hbody & _).
  exists c. repeat split; try assumption.
  intros u Hin. rewrite Hbody in Hin.
  apply list_elem_of_singleton in Hin. discriminate Hin.
Qed.

(** What [respondWithError] leaves: the context aborted, the status set,
    the error appended to the body, the keys and the header as they were. *)
Lemma respondWithError_aborts (c : gin.Context) code message :
  let c' := apiserver.respondWithError c code message in
  gin.IsAborted c' = true
  /\ gin.Status c' = code
  /\ gin.Keys c' = gin.Keys c
  /\ gin.Header c' = gin.Header c
  /\ gin.Written c' = gin.Written c ++ [gin.H [("error", message)]].
Proof.
  unfold apiserver.respondWithError, gin.AbortWithStatusJSON, gin.JSON_,
    gin.WriteHeaderNow, gin.IsAborted.
  gin_cbn. destruct (gin.Sent c); gin_cbn;
    (split; [apply Z.leb_refl | repeat split; reflexivity]).
Qed.

(** The conditions on the session and the repository leave no request
    out. *)
Lemma authentication_cases r w :
  (exists u w1, authenticated s r w u w1)
  \/ (exists code message w', auth_failure s r w code message w')
  \/ (exists w1, mistyped s r w w1).
Proof.
  destruct (sessions.Get (apiserver.sessionStore s) r apiserver.sessionName)
    as [sess [e|]] eqn:HG.
  { right; left. do 3 eexists. eapply session_read_fails. exact HG. }
  destruct (sessions.Values sess !! "user_id") as [v|] eqn:HV.
  2:{ right; left. do 3 eexists. eapply session_without_user; eassumption. }
  destruct (store.User (apiserver.store s) w) as [rp w1] eqn:HU.
  destruct v as [n|x|x].
  - destruct (store.Find (store.Repository (apiserver.store s)) rp n w1)
      as [u|e] eqn:HF.
    + left. exists u, w1, sess, n, rp. auto.
    + right; left. do 3 eexists. eapply user_lookup_fails; eassumption.
  - right; right. exists w1, sess, (VString x).
    rewrite HU. repeat split; try assumption. discriminate.
  - right; right. exists w1, sess, (VUser x).
    rewrite HU. repeat split; try assumption. discriminate.
Qed.

(** C9. Whenever [getMyUserInfo] executes, [AuthenticationUser] has stored
    a user record under ["ctxKeyUser"].
    - On each failure path (the session cannot be read, it has no
      ["user_id"], the repository does not find the user) the middleware
      returns the context aborted with the 500 or 401 and the error body,
      the key not set, and does not call [Next], whatever [Next] is.
    - When the session is read and the repository finds [u] under its
      integer ["user_id"], the middleware is [Next] on the context with
      ["ctxKeyUser"] set to [u].
    - [getMyUserInfo] on a context with a user under the key writes that
      user with 200; its assertion fails on any other context.
    - Every request is on one of these paths or carries a ["user_id"] that
      is not an [int], on which the middleware panics in its own [id.(int)]
      without calling [Next].
    - So on the route: a run that returns either wrote exactly the record
      of the user authenticated for the request, which is the one under the
      key, or is one of the failures with its error as the whole body and no
      user under the key; a run that panics does so in the middleware, never
      in the handler's assertion. *)
Theorem whoami_handler_has_user :
  (forall c w code message w',
      auth_failure s (gin.Request c) w code message w' ->
      let c' := apiserver.respondWithError c code message in
      (code = 401%Z \/ code = 500%Z)
      /\ gin.IsAborted c' = true
      /\ gin.Status c' = code
      /\ gin.Keys c' = gin.Keys c
      /\ forall Next, apiserver.AuthenticationUser s Next c w = gin.Ret c' w')
  /\ (forall c w u w1,
         authenticated s (gin.Request c) w u w1 ->
         gin.Value_ "ctxKeyUser" (gin.Set_ "ctxKeyUser" (VUser u) c)
         = Some (VUser u)
         /\ forall Next,
              apiserver.AuthenticationUser s Next c w
              = Next (gin.Set_ "ctxKeyUser" (VUser u) c) w1)
  /\ (forall c w w1,
         mistyped s (gin.Request c) w w1 ->
         forall Next,
           apiserver.AuthenticationUser s Next c w
           = gin.Panic (InterfaceConversion "int") c w1)
  /\ (forall c w,
         (exists u w1, authenticated s (gin.Request c) w u w1)
         \/ (exists code message w',
                auth_failure s (gin.Request c) w code message w')
         \/ (exists w1, mistyped s (gin.Request c) w w1))
  /\ (forall Next c (w : W),
         match gin.Value_ "ctxKeyUser" c with
         | Some (VUser u) =>
             apiserver.getMyUserInfo Next c w
             = gin.Ret (gin.JSON_ 200 (gin.JUser u) c) w
         | _ =>
             apiserver.getMyUserInfo Next c w
             = gin.Panic (InterfaceConversion "*model.User") c w
         end)
  /\ (forall id r w,
         match apiserver.ServeHTTP hasher s id apiserver.GET_private_whoami r w
         with
         | gin.Ret c w' =>
             (exists u,
                 authenticated s r w u w'
                 /\ gin.Status c = 200%Z
                 /\ gin.Written c = [gin.JUser u]
                 /\ gin.Keys c !! "ctxKeyUser" = Some (VUser u))
             \/ (exists code message,
                    auth_failure s r w code message w'
                    /\ gin.Status c = code
                    /\ gin.Written c = [gin.H [("error", message)]]
                    /\ gin.Keys c !! "ctxKeyUser" = None)
         | gin.Panic p c w' =>
             p = InterfaceConversion "int" /\ mistyped s r w w'
             /\ gin.Written c = []
         end).
Proof.
  split; [| split; [| split; [| split; [| split]]]].
  - intros c w code message w' Hfail c'. subst c'.
    split; [destruct Hfail; auto |].
    destruct (respondWithError_aborts c code message)
      as (Habort & Hstatus & Hkeys & _).
    split; [exact Habort |]. split; [exact Hstatus |]. split; [exact Hkeys |].
    intros Next. unfold apiserver.AuthenticationUser.
    destruct Hfail as [sess e HG | sess HG HV | sess n rp w1 e HG HV HU HF];
      rewrite HG; [reflexivity | |]; rewrite HV; [reflexivity |].
    rewrite HU, HF. reflexivity.
  - intros c w u w1 (sess & n & rp & HG & HV & HU & HF). split.
    + unfold gin.Value_. gin_cbn. apply lookup_insert_eq.
    + intros Next. unfold apiserver.AuthenticationUser.
      rewrite HG, HV, HU, HF. reflexivity.
  - intros c w w1 (sess & v & HG & HV & Hint & ->) Next.
    unfold apiserver.AuthenticationUser. rewrite HG, HV.
    destruct (store.User (apiserver.store s) w) as [rp w1]. cbn [snd].
    destruct v as [n|x|x]; [| reflexivity ..].
    exfalso. exact (Hint n eq_refl).
  - intros c w. apply authentication_cases.
  - intros Next c w. unfold apiserver.getMyUserInfo.
    destruct (gin.Value_ "ctxKeyUser" c) as [[n|x|u]|]; reflexivity.
  - intros id r w.
    pose proof (whoami_all hasher s id r w) as H. cbv zeta in H.
    destruct (sessions.Get (apiserver.sessionStore s) r apiserver.sessionName)
      as [sess [e|]] eqn:HG.
    { destruct H as (c & -> & Hs & _ & Hw & Hk & _).
      right. exists 500%Z, apiserver.errInternalServerError.
      split; [eapply session_read_fails; exact HG |].
      split; [exact Hs |]. split; [exact Hw |].
      rewrite Hk. rewrite lookup_insert_ne by discriminate.
      apply lookup_empty. }
    destruct (sessions.Values sess !! "user_id") as [v|] eqn:HV.
    2:{ destruct H as (c & -> & Hs & _ & Hw & Hk & _).
        right. exists 401%Z, apiserver.errNotAuthenticated.
        split; [eapply session_without_user; eassumption |].
        split; [exact Hs |]. split; [exact Hw |].
        rewrite Hk. rewrite lookup_insert_ne by discriminate.
        apply lookup_empty. }
    destruct (store.User (apiserver.store s) w) as [rp w1] eqn:HU.
    destruct v as [n|x|x].
    + destruct (store.Find (store.Repository (apiserver.store s)) rp n w1)
        as [u|e] eqn:HF.
      * destruct H as (c & -> & Hs & _ & Hw & Hk & _).
        left. exists u. split; [exists sess, n, rp; auto |].
        split; [exact Hs |]. split; [exact Hw |].
        rewrite Hk. apply lookup_insert_eq.
      * destruct H as (c & -> & Hs & _ & Hw & Hk & _).
        right. exists 401%Z, apiserver.errNotAuthenticated.
        split; [eapply user_lookup_fails; eassumption |].
        split; [exact Hs |]. split; [exact Hw |].
        rewrite Hk. rewrite lookup_insert_ne by discriminate.
        apply lookup_empty.
    + destruct H as (c & -> & _ & _ & Hw & _).
      split; [reflexivity |]. split; [| exact Hw].
      exists sess, (VString x). rewrite HU.
      repeat split; try assumption. discriminate.
    + destruct H as (c & -> & _ & _ & Hw & _).
      split; [reflexivity |]. split; [| exact Hw].
      exists sess, (VUser x). rewrite HU.
      repeat split; try assumption. discriminate.
Qed.

End Authentication.

(** ** Registration and login against any repository and session store *)

Section PublicHandlers.
Context {W R : Type}.
Variable hasher : model.Hasher.
Variable s : @apiserver.server W R.

(** C5, as the code has it. [POST /users] calls [Create] with the pointer
    [BindJSON] left, whatever [BindJSON] returned. An error of [Create]
    gives 400 [{"error": "bad request"}] and nothing else is written. When
    [Create] succeeds on a bound user, the body is exactly the fields
    [email] and [encrypted_password] of the created user, written with 200;
    but the status line the client was sent is 200 only if the body bound
    without error: on a binding error gin had already sent 400. With a nil
    pointer a [Create] that returns nil ends the handler in a panic at
    [u.Sanitize()], and a [Create] that panics ends it in that panic. *)
Theorem users_create_result_mapping id r w :
  let o := apiserver.ServeHTTP hasher s id apiserver.POST_users r w in
  let b := http.ReqBody r in
  let header := [http.Field "X-Request-ID" id] in
  let keys : gmap string Value := <["ctxKeyRequestID" := VString id]> ∅ in
  let rp := fst (store.User (apiserver.store s) w) in
  let w1 := snd (store.User (apiserver.store s) w) in
  match store.Create (store.Repository (apiserver.store s)) rp
          (body_pointer b) w1 with
  | store.CreateFailed _ w2 =>
      Completes o 400 header [gin.H [("error", "bad request")]] keys
        (400%Z, header) w2
  | store.Created u' w2 =>
      match body_pointer b, u' with
      | Some _, Some u =>
          Completes o 200 header
            [gin.H [("email", model.Email u);
                    ("encrypted_password", model.EncryptedPassword u)]]
            keys
            (if bind_fails b then 400%Z else 200%Z, header) w2
      | _, _ =>
          Panics o NilDereference (if bind_fails b then 400%Z else 200%Z)
            header keys
            (if bind_fails b then Some (400%Z, header) else None) w2
      end
  | store.CreatePanicked p w2 =>
      Panics o p (if bind_fails b then 400%Z else 200%Z) header keys
        (if bind_fails b then Some (400%Z, header) else None) w2
  end.
Proof.
  intros o b header keys rp w1. subst o b header keys rp w1.
  pose proof (users_all hasher s id r w) as H. cbv zeta in H.
  unfold bound_status, bound_sent in H.
  destruct (store.User (apiserver.store s) w) as [rp w1]. cbn [fst snd].
  exact H.
Qed.

(** C4, as the code has it. [POST /sessions] reads the email and the
    password through the pointer [BindJSON] left (a nil pointer is a panic).
    If no user with that email is found or the password comparison fails, it
    writes 401 [{"error": "incorrect email or password"}]; otherwise, if the
    session store fails to read the request's session or to save it, it
    writes 500 [{"error": "internal server error"}], after a failed [Save]
    with the header as [Save] left it; otherwise the request's session with
    ["user_id"] set to the found user's id (its fields are those of the
    incoming session and ["user_id"]) is saved into the response header and
    the handler returns with no body, the status being the 200 of a fresh
    response. What the client is sent is this status and header when the
    body bound without error; on a binding error gin had already sent 400
    with the header of that moment, so neither the status nor the cookie
    arrives. The cookie store leaves the header as it was when its [Save]
    fails. *)
Theorem sessions_create_cases id r w :
  let o := apiserver.ServeHTTP hasher s id apiserver.POST_sessions r w in
  let b := http.ReqBody r in
  let header := [http.Field "X-Request-ID" id] in
  let keys : gmap string Value := <["ctxKeyRequestID" := VString id]> ∅ in
  let rp := fst (store.User (apiserver.store s) w) in
  let w1 := snd (store.User (apiserver.store s) w) in
  let sent (code : Z) (h : list http.HeaderField) :=
    if bind_fails b then (400%Z, header) else (code, h) in
  match body_pointer b with
  | None =>
      Panics o NilDereference (if bind_fails b then 400%Z else 200%Z)
        header keys (if bind_fails b then Some (400%Z, header) else None) w1
  | Some req =>
      let unauthorized :=
        Completes o 401 header
          [gin.H [("error", "incorrect email or password")]] keys
          (sent 401%Z header) w1 in
      match store.FindByEmail (store.Repository (apiserver.store s)) rp
              (model.Email req) w1 with
      | inr _ => unauthorized
      | inl u =>
          if model.ComparePasswords hasher u (model.Password req) then
            match sessions.Get (apiserver.sessionStore s) r "go" with
            | (_, Some _) =>
                Completes o 500 header
                  [gin.H [("error", "internal server error")]] keys
                  (sent 500%Z header) w1
            | (sess, None) =>
                let payload :=
                  <["user_id" := VInt (model.ID u)]> (sessions.Values sess) in
                payload !! "user_id" = Some (VInt (model.ID u))
                /\ dom payload = {["user_id"]} ∪ dom (sessions.Values sess)
                /\ match sessions.Save (apiserver.sessionStore s) r header
                           (sessions.mkSession (sessions.Name sess) payload
                              (sessions.IsNew sess)) with
                   | (h, Some _) =>
                       Completes o 500 h
                         [gin.H [("error", "internal server error")]] keys
                         (sent 500%Z h) w1
                   | (h, None) =>
                       Completes o (if bind_fails b then 400%Z else 200%Z) h []
                         keys (sent 200%Z h) w1
                   end
            end
          else unauthorized
      end
  end
  /\ (forall cd r0 h0 sess h' e,
         sessions.Save (cookie.NewStore cd) r0 h0 sess = (h', Some e) ->
         h' = h0).
Proof.
  intros o b header keys rp w1 sent. split.
  - subst o b header keys rp w1 sent.
    pose proof (sessions_all hasher s id r w) as H. cbv zeta in H.
    unfold bound_status, bound_sent in H.
    destruct (store.User (apiserver.store s) w) as [rp w1]. cbn [fst snd].
    destruct (body_pointer (http.ReqBody r)) as [req|]; [| exact H].
    destruct (store.FindByEmail _ rp _ w1) as [u|e];
      [| destruct (bind_fails _); exact H].
    destruct (model.ComparePasswords hasher u _);
      [| destruct (bind_fails _); exact H].
    destruct (sessions.Get _ r _) as [sess [e|]];
      [destruct (bind_fails _); exact H |].
    split; [apply lookup_insert_eq |].
    split; [apply dom_insert_L |].
    destruct (sessions.Save _ r _ _) as [h [e|]];
      destruct (bind_fails _); exact H.
  - intros cd r0 h0 sess h' e. cbn [cookie.NewStore sessions.Save].
    destruct (cookie.Encode cd _ _); intros [= <- _]; reflexivity.
Qed.

(** C8, as the code has it. The handlers ignore the error [BindJSON]
    returns and have no check of their own, but a body that fails to parse
    is not left unanswered: gin's [BindJSON] has itself set and sent 400 and
    aborted the context before it returns. With the pointer nil and [c1] the
    context as [BindJSON] left it, [handleSessionsCreate] panics at
    [req.Email] after [s.store.User()], and [handleUsersCreate] passes the
    nil user to [Create] and does what [Create] does with it: it panics when
    [Create] panics and when it returns nil (at [u.Sanitize()]), and takes
    its own 400 [{"error": "bad request"}] branch when [Create] returns an
    error. The same holds on the routes: the client of a body that is not
    JSON has been sent 400 in every case. *)
Theorem nil_user_is_unguarded Next c w :
  body_pointer (http.ReqBody (gin.Request c)) = None ->
  let b := http.ReqBody (gin.Request c) in
  let c1 := if bind_fails b then gin.AbortWithStatus 400 c else c in
  let rp := fst (store.User (apiserver.store s) w) in
  let w1 := snd (store.User (apiserver.store s) w) in
  gin.BindJSON c = (None, c1)
  /\ (bind_fails b = true ->
      gin.IsAborted c1 = true
      /\ gin.Status c1 = 400%Z
      /\ gin.Written c1 = gin.Written c
      /\ (gin.Sent c = None -> gin.Sent c1 = Some (400%Z, gin.Header c)))
  /\ apiserver.handleSessionsCreate hasher s Next c w
     = gin.Panic NilDereference c1 w1
  /\ apiserver.handleUsersCreate s Next c w
     = match store.Create (store.Repository (apiserver.store s)) rp None w1 with
       | store.CreatePanicked p w2 => gin.Panic p c1 w2
       | store.Created _ w2 => gin.Panic NilDereference c1 w2
       | store.CreateFailed _ w2 =>
           gin.Ret (apiserver.respondWithError c1 400 "bad request") w2
       end
  /\ (forall id,
         let r := gin.Request c in
         let header := [http.Field "X-Request-ID" id] in
         let keys : gmap string Value :=
           <["ctxKeyRequestID" := VString id]> ∅ in
         let status := if bind_fails b then 400%Z else 200%Z in
         let sent := if bind_fails b then Some (400%Z, header) else None in
         Panics (apiserver.ServeHTTP hasher s id apiserver.POST_sessions r w)
           NilDereference status header keys sent w1
         /\ match store.Create (store.Repository (apiserver.store s)) rp None
                    w1 with
            | store.CreatePanicked p w2 =>
                Panics (apiserver.ServeHTTP hasher s id apiserver.POST_users r w)
                  p status header keys sent w2
            | store.Created _ w2 =>
                Panics (apiserver.ServeHTTP hasher s id apiserver.POST_users r w)
                  NilDereference status header keys sent w2
            | store.CreateFailed _ w2 =>
                Completes
                  (apiserver.ServeHTTP hasher s id apiserver.POST_users r w)
                  400 header [gin.H [("error", "bad request")]] keys
                  (400%Z, header) w2
            end).
Proof.
  intros Hnil b c1 rp w1. subst b c1 rp w1.
  assert (Hbind : gin.BindJSON c
                  = (None, if bind_fails (http.ReqBody (gin.Request c))
                           then gin.AbortWithStatus 400 c else c)).
  { unfold gin.BindJSON.
    destruct (http.ReqBody (gin.Request c)); try discriminate Hnil;
      reflexivity. }
  split; [exact Hbind |]. split; [| split; [| split]].
  - intros ->. unfold gin.AbortWithStatus, gin.WriteHeaderNow, gin.IsAborted.
    gin_cbn. destruct (gin.Sent c) eqn:HS; gin_cbn.
    + split; [apply Z.leb_refl |]. repeat split. discriminate.
    + split; [apply Z.leb_refl |]. repeat split.
  - unfold apiserver.handleSessionsCreate. rewrite Hbind.
    destruct (store.User (apiserver.store s) w) as [rp w1]. reflexivity.
  - unfold apiserver.handleUsersCreate, apiserver.usersCreate. rewrite Hbind.
    destruct (store.User (apiserver.store s) w) as [rp w1]. cbn [fst snd].
    destruct (store.Create _ rp None w1) as [[u|] w2|e w2|p w2]; reflexivity.
  - intros id r header keys status sent. subst r header keys status sent.
    pose proof (sessions_all hasher s id (gin.Request c) w) as HS.
    pose proof (users_all hasher s id (gin.Request c) w) as HU.
    cbv zeta in HS, HU. unfold bound_status, bound_sent in HS, HU.
    rewrite Hnil in HS, HU.
    destruct (store.User (apiserver.store s) w) as [rp w1]. cbn [fst snd].
    split; [exact HS |].
    destruct (store.Create _ rp None w1) as [[u|] w2|e w2|p w2]; exact HU.
Qed.

End PublicHandlers.

(** ** Sessions held in the cookie store *)

Section CookieSessions.
Context {W R : Type}.
Variable hasher : model.Hasher.
Variable st : store.Store W R.
Variable cd : cookie.Codec.

Let s : @apiserver.server W R := apiserver.NewServer st (cookie.NewStore cd).

Lemma cookie_Get_name r name sess err :
  sessions.Get (cookie.NewStore cd) r name = (sess, err) ->
  sessions.Name sess = name.
Proof.
  cbn. destruct (http.Cookie _ name) as [v|];
    [destruct (cookie.Decode cd name v) |];
    intros [= <- _]; reflexivity.
Qed.

(** C1. Session round trip. Let [u] be the user the repository holds under
    the email of the request and under [u]'s id, let the password match, and
    let the codec decode the cookie it issues for the payload to that
    payload. Then [POST /sessions] answers 200 with no body and sets the
    cookie; [GET /private/whoami] with that cookie answers 200 with [u]'s
    record; and a request without a session cookie gets 401
    [{"error": "not authenticated"}]. *)
Theorem session_round_trip id1 id2 r w req u rp w1 rp2 w2 sess v :
  http.ReqBody r = http.JSONUser req ->
  store.User st w = (rp, w1) ->
  store.FindByEmail (store.Repository st) rp (model.Email req) w1 = inl u ->
  model.ComparePasswords hasher u (model.Password req) = true ->
  sessions.Get (cookie.NewStore cd) r "go" = (sess, None) ->
  let payload := <["user_id" := VInt (model.ID u)]> (sessions.Values sess) in
  cookie.Encode cd "go" payload = Some v ->
  cookie.Decode cd "go" v = Some payload ->
  store.User st w1 = (rp2, w2) ->
  store.Find (store.Repository st) rp2 (model.ID u) w2 = inl u ->
  (exists c1,
      apiserver.ServeHTTP hasher s id1 apiserver.POST_sessions r w = gin.Ret c1 w1
      /\ gin.Status c1 = 200%Z
      /\ gin.Written c1 = []
      /\ http.SetCookies (gin.Header c1) = [("go", v)])
  /\ (forall r2,
         http.Cookies r2 = [("go", v)] ->
         gin.Returns
           (apiserver.ServeHTTP hasher s id2 apiserver.GET_private_whoami r2 w1)
           200 [http.Field "X-Request-ID" id2] [gin.JUser u]
           (<["ctxKeyUser" := VUser u]> (<["ctxKeyRequestID" := VString id2]> ∅))
           w2)
  /\ (forall r3 w3,
         http.Cookie (http.Cookies r3) "go" = None ->
         gin.Returns
           (apiserver.ServeHTTP hasher s id2 apiserver.GET_private_whoami r3 w3)
           401 [http.Field "X-Request-ID" id2]
           [gin.H [("error", "not authenticated")]]
           (<["ctxKeyRequestID" := VString id2]> ∅) w3).
Proof.
  intros Hbody HU HF HP HG payload HE HD HU2 HF2.
  pose proof (cookie_Get_name _ _ _ _ HG) as Hname.
  split; [| split].
  - pose proof (sessions_run hasher s id1 r w req Hbody) as Hrun.
    cbv zeta in Hrun. subst s. cbn [apiserver.store apiserver.sessionStore
      apiserver.NewServer] in Hrun.
    rewrite HU, HF, HP, HG in Hrun.
    cbn [cookie.NewStore sessions.Save sessions.Name sessions.Values] in Hrun.
    rewrite Hname in Hrun. fold payload in Hrun. rewrite HE in Hrun.
    destruct Hrun as (c1 & Ho & Hstatus & Hheader & Hbody1 & _).
    exists c1. repeat split; try assumption.
    rewrite Hheader. reflexivity.
  - intros r2 Hcookie.
    pose proof (whoami_run hasher s id2 r2 w1) as Hrun.
    cbv zeta in Hrun. subst s. cbn [apiserver.store apiserver.sessionStore
      apiserver.NewServer cookie.NewStore sessions.Get] in Hrun.
    unfold apiserver.sessionName in Hrun.
    rewrite Hcookie in Hrun. cbn [http.Cookie] in Hrun.
    change (String.eqb "go" "go") with true in Hrun. cbv iota in Hrun.
    rewrite HD in Hrun. cbn [sessions.Values] in Hrun.
    unfold payload in Hrun at 1. rewrite lookup_insert_eq in Hrun.
    rewrite HU2, HF2 in Hrun. exact Hrun.
  - intros r3 w3 Hnone.
    pose proof (whoami_run hasher s id2 r3 w3) as Hrun.
    cbv zeta in Hrun. subst s. cbn [apiserver.store apiserver.sessionStore
      apiserver.NewServer cookie.NewStore sessions.Get] in Hrun.
    unfold apiserver.sessionName in Hrun.
    rewrite Hnone in Hrun. cbn [sessions.Values] in Hrun.
    rewrite lookup_empty in Hrun. exact Hrun.
Qed.

(** C2, as the code has it. A session cookie the codec rejects (an invalid
    signature) makes [GET /private/whoami] answer 500
    [{"error": "internal server error"}]: the store's [Get] returns the
    codec's error, which the middleware treats as an internal failure. The
    cookie resolves to no user: the error is the whole body and the key
    ["ctxKeyUser"] is not set. *)
Theorem rejected_cookie_gets_500 id r w v :
  http.Cookie (http.Cookies r) "go" = Some v ->
  cookie.Decode cd "go" v = None ->
  gin.Returns
    (apiserver.ServeHTTP hasher s id apiserver.GET_private_whoami r w)
    500 [http.Field "X-Request-ID" id]
    [gin.H [("error", "internal server error")]]
    (<["ctxKeyRequestID" := VString id]> ∅) w.
Proof.
  intros Hcookie Hdecode.
  pose proof (whoami_run hasher s id r w) as Hrun.
  cbv zeta in Hrun. subst s. cbn [apiserver.store apiserver.sessionStore
    apiserver.NewServer cookie.NewStore sessions.Get] in Hrun.
  unfold apiserver.sessionName in Hrun.
  rewrite Hcookie, Hdecode in Hrun. exact Hrun.
Qed.

End CookieSessions.

(** ** The SQL store *)

Section SqlStore.
Variable hasher : model.Hasher.
Variable IsEmail : string -> bool.

Local Abbreviation insert := (sqlstore.insert hasher IsEmail).
Local Abbreviation reachable := (sqlstore.reachable hasher IsEmail).

Lemma BeforeCreate_keeps u u1 :
  model.BeforeCreate hasher u = Some u1 ->
  model.Email u1 = model.Email u /\ model.Password u1 = model.Password u.
Proof.
  unfold model.BeforeCreate.
  destruct (String.eqb (model.Password u) ""); [intros [= <-]; auto |].
  destruct (model.Hash hasher _); intros [= <-]; auto.
Qed.


Lemma insert_inv u d u' d' :
  insert u d = inl (u', d') ->
  exists u1,
    model.Validate IsEmail u = true
    /\ model.BeforeCreate hasher u = Some u1
    /\ existsb (sqlstore.has_email (model.Email u)) (sqlstore.users d) = false
    /\ u' = model.mkUser (sqlstore.next_id d) (model.Email u)
              (model.Password u) (model.EncryptedPassword u1)
    /\ d' = sqlstore.mkDB
              (sqlstore.users d ++
               [sqlstore.mkRow (sqlstore.next_id d) (model.Email u)
                  (model.EncryptedPassword u1)])
              (sqlstore.next_id d + 1)%Z.
Proof.
  unfold sqlstore.insert.
  destruct (model.Validate IsEmail u) eqn:HV; [| discriminate].
  destruct (model.BeforeCreate hasher u) as [u1|] eqn:HB; [| discriminate].
  destruct (BeforeCreate_keeps _ _ HB) as [He Hp]. rewrite He, Hp.
  cbn [negb].
  destruct (existsb _ _) eqn:HE; [discriminate |].
  intros [= <- <-]. exists u1. auto.
Qed.

Lemma existsb_has_email email rows :
  existsb (sqlstore.has_email email) rows = true <->
  email ∈ map sqlstore.row_email rows.
Proof.
  rewrite existsb_exists, list_elem_of_fmap. unfold sqlstore.has_email.
  split.
  - intros (row & Hin & Heq). apply String.eqb_eq in Heq.
    exists row. split; [auto | by apply list_elem_of_In].
  - intros (row & -> & Hin). exists row.
    split; [by apply list_elem_of_In | apply String.eqb_refl].
Qed.

(** The invariant of the table: emails are unique and none is empty. *)
Lemma reachable_emails d :
  reachable d ->
  NoDup (sqlstore.emails d) /\ Forall (fun e => e <> "") (sqlstore.emails d).
Proof.
  induction 1 as [| d u u' d' _ [IHnodup IHne] Hins].
  - split; [apply NoDup_nil_2 | apply Forall_nil_2].
  - apply insert_inv in Hins as (u1 & HV & _ & HE & _ & ->).
    unfold sqlstore.emails in *. cbn [sqlstore.users].
    rewrite map_app. cbn [map sqlstore.row_email]. split.
    + apply NoDup_app. split; [exact IHnodup | split; [| apply NoDup_singleton]].
      intros e Hin Hin'. apply list_elem_of_singleton in Hin'. subst e.
      apply existsb_has_email in Hin. congruence.
    + apply Forall_app. split; [exact IHne |].
      apply Forall_singleton.
      unfold model.Validate in HV.
      destruct (String.eqb_spec (model.Email u) ""); [discriminate | assumption].
Qed.

Lemma count_email_absent email rows :
  email ∉ map sqlstore.row_email rows ->
  length (List.filter (sqlstore.has_email email) rows) = 0%nat.
Proof.
  induction rows as [| row rows IH]; [reflexivity |].
  cbn [map List.filter]. intros Hnotin.
  apply not_elem_of_cons in Hnotin as [Hne Hnotin].
  unfold sqlstore.has_email at 1.
  destruct (String.eqb_spec (sqlstore.row_email row) email); [congruence |].
  auto.
Qed.

(** A unique email is held by exactly one row. *)
Lemma count_email_unique email rows :
  NoDup (map sqlstore.row_email rows) ->
  email ∈ map sqlstore.row_email rows ->
  length (List.filter (sqlstore.has_email email) rows) = 1%nat.
Proof.
  induction rows as [| row rows IH]; cbn [map List.filter].
  - intros _ Hin. by apply elem_of_nil in Hin.
  - intros Hnodup Hin. apply NoDup_cons in Hnodup as [Hnotin Hnodup].
    unfold sqlstore.has_email at 1.
    destruct (String.eqb_spec (sqlstore.row_email row) email) as [Heq|Hne].
    + cbn [length]. rewrite count_email_absent; [reflexivity | congruence].
    + apply elem_of_cons in Hin as [Heq | Hin]; [congruence | auto].
Qed.

Lemma User_sets h r h' :
sqlstore.User h = (r, h') ->
sqlstore.userRepository (sqlstore.this h') = Some r
/\ sqlstore.self h' = sqlstore.self h
/\ sqlstore.db (sqlstore.this h') = sqlstore.db (sqlstore.this h).
Proof.
unfold sqlstore.User.
destruct (sqlstore.userRepository (sqlstore.this h)) as [r0|] eqn:Hfield;
  intros [= <- <-]; auto.
Qed.

Lemma User_again h r :
sqlstore.userRepository (sqlstore.this h) = Some r ->
sqlstore.User h = (r, h).
Proof. unfold sqlstore.User. intros ->. reflexivity. Qed.

Section Registration.
Variable ss : sessions.Store.
Variable id : string.

Let s : @apiserver.server sqlstore.Heap sqlstore.ptr :=
  apiserver.NewServer (sqlstore.AsStore hasher IsEmail) ss.

(** A [POST /users] that wrote its 200 inserted the user the body bound:
    the response is built from the sanitized record [Create] left, the heap
    differs from the one [User()] returned by the new table only, and the
    status line the client was sent is 200 unless the body bound with an
    error. *)
Lemma registered_inv r h c h' :
apiserver.ServeHTTP hasher s id apiserver.POST_users r h = gin.Ret c h' ->
gin.Status c = 200%Z ->
exists u0 rp h1 d u d',
  body_pointer (http.ReqBody r) = Some u0
  /\ sqlstore.User h = (rp, h1)
  /\ sqlstore.db_of rp h1 = Some d
  /\ insert u0 d = inl (u, d')
  /\ h' = sqlstore.set_db d' h1
  /\ gin.Written c = [apiserver.usersCreated (model.Sanitize u)]
  /\ gin.Sent c
     = Some (bound_status (http.ReqBody r), [http.Field "X-Request-ID" id]).
Proof.
intros Hrun Hstatus.
pose proof (users_all hasher s id r h) as Hcases.
cbv zeta in Hcases. subst s.
cbn [apiserver.store apiserver.NewServer sqlstore.AsStore store.User
     store.Repository store.Create] in Hcases.
destruct (sqlstore.User h) as [rp h1] eqn:HU.
unfold sqlstore.Create in Hcases.
destruct (body_pointer (http.ReqBody r)) as [u0|] eqn:Hptr.
2:{ destruct Hcases as (c' & Ho & _). rewrite Hrun in Ho. discriminate. }
destruct (sqlstore.db_of rp h1) as [d|] eqn:Hdb.
- destruct (insert u0 d) as [[u d']|e] eqn:Hins.
  + destruct Hcases as (c' & Ho & _ & _ & Hwritten & _ & _ & Hsent).
    rewrite Hrun in Ho. injection Ho as Hc Hh. subst c' h'.
    exists u0, rp, h1, d, u, d'. auto 10.
  + destruct Hcases as (c' & Ho & Hst & _).
    rewrite Hrun in Ho. injection Ho as Hc Hh. subst c'. lia.
- destruct Hcases as (c' & Ho & _). rewrite Hrun in Ho. discriminate.
Qed.


(** The table a heap holds is the one its repository reaches. *)
Lemma db_of_this rp h d :
sqlstore.db_of rp h = Some d -> d = sqlstore.db (sqlstore.this h).
Proof.
unfold sqlstore.db_of.
destruct (sqlstore.repositories h !! rp) as [ro|]; [| discriminate].
destruct (Nat.eqb _ _); [| discriminate]. congruence.
Qed.


(** C7. Every table [Create] can produce holds unique, non-empty emails.
    On such a table, when a [POST /users] answers 200, a second one with the
    same email answers 400 [{"error": "bad request"}] and leaves the store as
    it was, with exactly one row holding that email. *)
Theorem email_registered_once id2 r1 r2 h u1 u2 c1 h1 :
reachable (sqlstore.db (sqlstore.this h)) ->
http.ReqBody r1 = http.JSONUser u1 ->
http.ReqBody r2 = http.JSONUser u2 ->
model.Email u2 = model.Email u1 ->
apiserver.ServeHTTP hasher s id apiserver.POST_users r1 h = gin.Ret c1 h1 ->
gin.Status c1 = 200%Z ->
let table := sqlstore.db (sqlstore.this h1) in
(exists c2,
    apiserver.ServeHTTP hasher s id2 apiserver.POST_users r2 h1 = gin.Ret c2 h1
    /\ gin.Status c2 = 400%Z
    /\ gin.Written c2 = [gin.H [("error", "bad request")]])
/\ sqlstore.count_email (model.Email u1) table = 1%nat
/\ NoDup (sqlstore.emails table)
/\ Forall (fun e => e <> "") (sqlstore.emails table).
Proof.
intros Hreach Hbody1 Hbody2 Hemail Hrun Hstatus table.
destruct (registered_inv r1 h c1 h1 Hrun Hstatus)
  as (u0 & rp & h0 & d & u & d' & Hptr & HU & Hdb & Hins & -> & _).
rewrite Hbody1 in Hptr. injection Hptr as <-.
destruct (User_sets _ _ _ HU) as (Hfield & Hself & Hdb0).
assert (Hd : d = sqlstore.db (sqlstore.this h)).
{ rewrite (db_of_this _ _ _ Hdb). exact Hdb0. }
assert (Htable : table = d') by reflexivity.
assert (Hreach' : reachable d').
{ eapply sqlstore.reachable_insert; [| exact Hins]. rewrite Hd. exact Hreach. }
destruct (reachable_emails d' Hreach') as [Hnodup Hne].
pose proof Hins as Hins'.
apply insert_inv in Hins' as (u3 & _ & _ & _ & _ & Hd').
assert (Hin : model.Email u1 ∈ sqlstore.emails d').
{ rewrite Hd'. unfold sqlstore.emails. cbn [sqlstore.users].
  rewrite map_app. apply elem_of_app. right.
  apply list_elem_of_singleton. reflexivity. }
rewrite Htable. split; [| split; [| split]]; try assumption.
- pose proof (users_run hasher s id2 r2 (sqlstore.set_db d' h0) u2 Hbody2)
    as Hcases.
  cbv zeta in Hcases. subst s.
  cbn [apiserver.store apiserver.NewServer sqlstore.AsStore store.User
       store.Repository store.Create] in Hcases.
  rewrite (User_again (sqlstore.set_db d' h0) rp) in Hcases by exact Hfield.
  unfold sqlstore.Create in Hcases.
  assert (Hdb' : sqlstore.db_of rp (sqlstore.set_db d' h0) = Some d').
  { unfold sqlstore.db_of in *. cbn [sqlstore.set_db sqlstore.repositories
      sqlstore.self sqlstore.this sqlstore.db].
    destruct (sqlstore.repositories h0 !! rp) as [ro|]; [| discriminate].
    destruct (Nat.eqb _ _); [reflexivity | discriminate]. }
  rewrite Hdb' in Hcases.
  destruct (insert u2 d') as [[u' d'']|e] eqn:Hins2.
  + apply insert_inv in Hins2 as (u4 & _ & _ & Habsent & _).
    rewrite Hemail in Habsent.
    apply existsb_has_email in Hin. unfold sqlstore.emails in Hin.
    congruence.
  + destruct Hcases as (c2 & Ho & Hst & _ & Hwritten & _).
    exists c2. auto.
- apply count_email_unique; assumption.
Qed.

End Registration.

End SqlStore.

(** ** What every route keeps of the world *)

Section Preservation.
Context {W R : Type}.
Variable hasher : model.Hasher.
Variable s : @apiserver.server W R.
Variable P : W -> Prop.

Hypothesis User_keeps :
  forall w, P w -> P (snd (store.User (apiserver.store s) w)).
Hypothesis Create_keeps :
  forall rp u w,
    P w ->
    P (store.world_after
         (store.Create (store.Repository (apiserver.store s)) rp u w)).

Definition keeps (h : gin.HandlerFunc W) : Prop :=
forall Next, gin.preserves P Next -> gin.preserves P (h Next).

Lemma loop_preserves n hs :
Forall keeps hs -> gin.preserves P (gin.loop n hs).
Proof.
induction hs as [| h rest IH]; intros Hall c w HP; cbn [gin.loop].
- exact HP.
- apply Forall_cons in Hall as [Hh Hrest].
  destruct (gin.index c <? n)%Z; [| exact HP].
  assert (Hnext : gin.preserves P (fun c0 w0 => gin.loop n rest (gin.incr c0) w0)).
  { intros c0 w0 HP0. apply (IH Hrest). exact HP0. }
  specialize (Hh _ Hnext c w HP).
  destruct (h _ c w) as [c' w' | p c' w']; cbn [gin.world_of] in Hh.
  + apply (IH Hrest). exact Hh.
  + exact Hh.
Qed.

Lemma SetRequestID_keeps id : keeps (apiserver.SetRequestID id).
Proof. intros Next HN c w HP. apply HN. exact HP. Qed.

Lemma logRequest_keeps : keeps apiserver.logRequest.
Proof.
intros Next HN c w HP. unfold apiserver.logRequest.
specialize (HN c w HP). destruct (Next c w); exact HN.
Qed.

Lemma getMyUserInfo_keeps : keeps apiserver.getMyUserInfo.
Proof.
intros Next HN c w HP. unfold apiserver.getMyUserInfo.
destruct (gin.Value_ _ c) as [[?|?|?]|]; exact HP.
Qed.

Lemma AuthenticationUser_keeps : keeps (apiserver.AuthenticationUser s).
Proof.
intros Next HN c w HP. unfold apiserver.AuthenticationUser.
destruct (sessions.Get _ _ _) as [sess [e|]]; [exact HP |].
destruct (sessions.Values sess !! "user_id") as [v|]; [| exact HP].
specialize (User_keeps w HP).
destruct (store.User _ w) as [rp w1]. cbn [snd] in User_keeps.
destruct v as [n|?|?]; try exact User_keeps.
destruct (store.Find _ rp n w1); [apply HN |]; exact User_keeps.
Qed.

Lemma handleUsersCreate_keeps : keeps (apiserver.handleUsersCreate s).
Proof.
intros Next HN c w HP.
unfold apiserver.handleUsersCreate, apiserver.usersCreate.
destruct (gin.BindJSON c) as [u c1].
specialize (User_keeps w HP).
destruct (store.User _ w) as [rp w1]. cbn [snd] in User_keeps.
specialize (Create_keeps rp u w1 User_keeps).
destruct (store.Create _ rp u w1) as [u' w2|e w2|p w2];
  cbn [store.world_after] in Create_keeps; try exact Create_keeps.
destruct u, u'; exact Create_keeps.
Qed.

Lemma handleSessionsCreate_keeps :
keeps (apiserver.handleSessionsCreate hasher s).
Proof.
intros Next HN c w HP. unfold apiserver.handleSessionsCreate.
destruct (gin.BindJSON c) as [req c1].
specialize (User_keeps w HP).
destruct (store.User _ w) as [rp w1]. cbn [snd] in User_keeps.
destruct req as [req|]; [| exact User_keeps].
cbv zeta.
destruct (store.FindByEmail _ rp _ w1) as [u|e]; [| exact User_keeps].
destruct (negb _); [exact User_keeps |].
destruct (sessions.Get _ _ _) as [sess [e|]]; [exact User_keeps |].
destruct (sessions.Save _ _ _ _) as [h [e|]]; exact User_keeps.
Qed.

(** Whatever the route and however the request ends. *)
Lemma ServeHTTP_preserves id route r w :
P w -> P (gin.world_of (apiserver.ServeHTTP hasher s id route r w)).
Proof.
intros HP. unfold apiserver.ServeHTTP, gin.ServeHTTP.
match goal with
| |- P (gin.world_of (match ?run with _ => _ end)) =>
    assert (Hrun : P (gin.world_of run)); [| destruct run; exact Hrun]
end.
apply loop_preserves; [| exact HP].
unfold apiserver.configureRouter.
apply Forall_app. split.
- repeat constructor; [apply SetRequestID_keeps | apply logRequest_keeps].
- destruct route; repeat constructor;
    auto using handleUsersCreate_keeps, handleSessionsCreate_keeps,
      AuthenticationUser_keeps, getMyUserInfo_keeps.
Qed.

End Preservation.

(** ** One repository per store *)

(** C10. [Store.User()] is idempotent. A first call, on a store whose
    [userRepository] field is nil, allocates a new [UserRepository] bound to
    the store and records it in the field; a call on a store whose field is
    set returns that repository and changes nothing. After any call the field
    holds the repository returned, every further call returns it again, and
    every route of a server over the store leaves it in the field: the
    handlers share the one repository. *)
Theorem User_idempotent (h : sqlstore.Heap) :
let r := fst (sqlstore.User h) in
let h1 := snd (sqlstore.User h) in
match sqlstore.userRepository (sqlstore.this h) with
| None =>
    r = length (sqlstore.repositories h)
    /\ sqlstore.repositories h1
       = sqlstore.repositories h ++ [sqlstore.mkUserRepository (sqlstore.self h)]
    /\ sqlstore.repositories h1 !! r
       = Some (sqlstore.mkUserRepository (sqlstore.self h1))
| Some r0 => r = r0 /\ h1 = h
end
/\ sqlstore.userRepository (sqlstore.this h1) = Some r
/\ sqlstore.User h1 = (r, h1)
/\ (forall n, Nat.iter n (fun h' => snd (sqlstore.User h')) h1 = h1)
/\ (forall hasher IsEmail ss id route req,
       let s := apiserver.NewServer (sqlstore.AsStore hasher IsEmail) ss in
       sqlstore.userRepository
         (sqlstore.this
            (gin.world_of (apiserver.ServeHTTP hasher s id route req h1)))
       = Some r).
Proof.
intros r h1.
destruct (sqlstore.User h) as [r' h'] eqn:HU. cbn [fst snd] in r, h1.
subst r h1.
destruct (User_sets _ _ _ HU) as (Hfield & Hself & _).
pose proof (User_again _ _ Hfield) as Hagain.
split; [| split; [exact Hfield | split; [exact Hagain | split]]].
- unfold sqlstore.User in HU.
  destruct (sqlstore.userRepository (sqlstore.this h)) as [r0|];
    injection HU as <- <-; [auto |].
  cbn [sqlstore.repositories sqlstore.self].
  split; [reflexivity | split; [reflexivity |]].
  rewrite lookup_app_r by lia. rewrite Nat.sub_diag. reflexivity.
- induction n as [| n IH]; [reflexivity |].
  rewrite Nat.iter_succ, IH, Hagain. reflexivity.
- intros hasher IsEmail ss id route req s.
  apply (ServeHTTP_preserves hasher s
           (fun w => sqlstore.userRepository (sqlstore.this w) = Some r')).
  + intros w Hw. cbn. rewrite (User_again _ _ Hw). exact Hw.
  + intros rp u w Hw. cbn. unfold sqlstore.Create.
    destruct u as [u|]; [| exact Hw].
    destruct (sqlstore.db_of rp w) as [d|]; [| exact Hw].
    destruct (sqlstore.insert hasher IsEmail u d) as [[u' d']|e]; exact Hw.
  + exact Hfield.
Qed.

(** ** The properties on the fixtures *)

(** No session cookie at all: the fixture server answers 401. *)
Lemma whoami_rejects_unauthenticated_witness :
  exists c,
    apiserver.ServeHTTP fixture.hasher fixture.srv "req-id"
      apiserver.GET_private_whoami (fixture.whoami []) fixture.registered
      = gin.Ret c fixture.registered
    /\ gin.Status c = 401%Z
    /\ gin.Written c = [gin.H [("error", "not authenticated")]]
    /\ forall u, gin.JUser u ∉ gin.Written c.
Proof.
  apply (whoami_rejects_unauthenticated fixture.hasher fixture.srv "req-id"
           (fixture.whoami []) fixture.registered 401%Z "not authenticated"
           fixture.registered).
  apply (session_without_user _ _ _ (sessions.mkSession "go" ∅ true));
    vm_compute; reflexivity.
Defined.

(** The test user as the table holds it after registration. *)
Definition stored_test_user : model.User :=
model.mkUser 1 "user@example.test" "" "$2a$password".

(** The test user logs in and is recognised by the cookie. *)
Lemma session_round_trip_witness :
(exists c1,
    fixture.serve apiserver.POST_sessions fixture.login fixture.registered
    = gin.Ret c1 fixture.registered
    /\ gin.Status c1 = 200%Z
    /\ gin.Written c1 = []
    /\ http.SetCookies (gin.Header c1) = [("go", "go|i|k3y")])
/\ gin.Returns
     (fixture.serve apiserver.GET_private_whoami
        (fixture.whoami [("go", "go|i|k3y")]) fixture.registered)
     200 [http.Field "X-Request-ID" "req-id"] [gin.JUser stored_test_user]
     (<["ctxKeyUser" := VUser stored_test_user]>
        (<["ctxKeyRequestID" := VString "req-id"]> ∅))
     fixture.registered.
Proof.
pose proof (session_round_trip fixture.hasher
              (sqlstore.AsStore fixture.hasher fixture.IsEmail) fixture.codec
              "req-id" "req-id" fixture.login fixture.registered
              model.TestUser stored_test_user 0%nat fixture.registered
              0%nat fixture.registered (sessions.mkSession "go" ∅ true)
              "go|i|k3y") as Htrip.
cbv zeta in Htrip.
destruct Htrip as (Hlogin & Hwhoami & _); try (vm_compute; reflexivity).
split; [exact Hlogin |].
apply (Hwhoami (fixture.whoami [("go", "go|i|k3y")])). reflexivity.
Defined.

(** The cookie issued to the test user, with its fourth byte altered. *)
Definition forged : string := http.AlterByte 3 "j"%char "go|i|k3y".

(** The altered cookie is rejected by the codec: 500. *)
Lemma rejected_cookie_gets_500_witness :
gin.Returns
  (fixture.serve apiserver.GET_private_whoami
     (fixture.whoami [("go", forged)]) fixture.registered)
  500 [http.Field "X-Request-ID" "req-id"]
  [gin.H [("error", "internal server error")]]
  (<["ctxKeyRequestID" := VString "req-id"]> ∅) fixture.registered.
Proof.
apply (rejected_cookie_gets_500 fixture.hasher
         (sqlstore.AsStore fixture.hasher fixture.IsEmail) fixture.codec
         "req-id" (fixture.whoami [("go", forged)]) fixture.registered forged);
  vm_compute; reflexivity.
Defined.

(** C2 as stated fails: the cookie ["go|i|k3y"] the server issued is valid
    (it gets 200), and with one byte altered it gets 500, not 401. *)
Lemma altered_cookie_is_not_401 :
fixture.issued = [("go", "go|i|k3y")]
/\ gin.StatusOf
     (fixture.serve apiserver.GET_private_whoami
        (fixture.whoami fixture.issued) fixture.registered) = Some 200%Z
/\ forged = "go|j|k3y"
/\ gin.StatusOf
     (fixture.serve apiserver.GET_private_whoami
        (fixture.whoami [("go", forged)]) fixture.registered) = Some 500%Z
/\ gin.StatusOf
     (fixture.serve apiserver.GET_private_whoami
        (fixture.whoami [("go", forged)]) fixture.registered) <> Some 401%Z.
Proof.
repeat split; try (vm_compute; reflexivity).
vm_compute. discriminate.
Qed.

(** The middleware on the fixtures: with the cookie issued to the test user
    it is [Next] on the context holding the stored user, and over a session
    store whose ["user_id"] is a string it panics, whatever [Next] is. *)
Lemma whoami_handler_has_user_witness :
let c := gin.NewContext (fixture.whoami [("go", "go|i|k3y")]) in
(forall Next,
    apiserver.AuthenticationUser fixture.srv Next c fixture.registered
    = Next (gin.Set_ "ctxKeyUser" (VUser stored_test_user) c)
        fixture.registered)
/\ (forall Next,
       apiserver.AuthenticationUser fixture.odd_srv Next c fixture.registered
       = gin.Panic (InterfaceConversion "int") c fixture.registered).
Proof.
intros c. split.
- destruct (whoami_handler_has_user fixture.hasher fixture.srv)
    as (_ & Hnext & _).
  apply (Hnext c fixture.registered stored_test_user fixture.registered).
  exists (sessions.mkSession "go" {[ "user_id" := VInt 1 ]} false), 1%Z, 0%nat.
  repeat split; vm_compute; reflexivity.
- destruct (whoami_handler_has_user fixture.hasher fixture.odd_srv)
    as (_ & _ & Hpanic & _).
  apply (Hpanic c fixture.registered fixture.registered).
  exists (sessions.mkSession "go" {[ "user_id" := VString "1" ]} false),
    (VString "1").
  repeat split; try (vm_compute; reflexivity). discriminate.
Defined.

(** A login with the right credentials and no cookie: 200 and the cookie,
    both sent to the client. *)
Lemma sessions_create_cases_witness :
Completes
  (fixture.serve apiserver.POST_sessions fixture.login fixture.registered)
  200 [http.Field "X-Request-ID" "req-id"; http.SetCookie "go" "go|i|k3y"] []
  (<["ctxKeyRequestID" := VString "req-id"]> ∅)
  (200%Z, [http.Field "X-Request-ID" "req-id"; http.SetCookie "go" "go|i|k3y"])
  fixture.registered.
Proof.
pose proof (sessions_create_cases fixture.hasher fixture.srv "req-id"
              fixture.login fixture.registered) as Hcases.
cbv zeta in Hcases. destruct Hcases as [Hcases _].
vm_compute in Hcases. destruct Hcases as (_ & _ & Hcases).
vm_compute. exact Hcases.
Defined.

(** C4 as stated fails: the user exists and the password matches, yet the
    response is 500 with the error body and no cookie, not 200. *)
Lemma login_with_rejected_cookie_gets_500 :
sqlstore.FindByEmail 0%nat (model.Email model.TestUser) fixture.registered
= inl stored_test_user
/\ model.ComparePasswords fixture.hasher stored_test_user
     (model.Password model.TestUser) = true
/\ Completes
     (fixture.serve apiserver.POST_sessions fixture.stale_login
        fixture.registered)
     500 [http.Field "X-Request-ID" "req-id"]
     [gin.H [("error", "internal server error")]]
     (<["ctxKeyRequestID" := VString "req-id"]> ∅)
     (500%Z, [http.Field "X-Request-ID" "req-id"]) fixture.registered
/\ gin.StatusOf
     (fixture.serve apiserver.POST_sessions fixture.stale_login
        fixture.registered)
   <> Some 200%Z.
Proof.
split; [vm_compute; reflexivity |]. split; [vm_compute; reflexivity |].
split.
- eexists. split; [vm_compute; reflexivity |].
  repeat split; vm_compute; reflexivity.
- vm_compute. discriminate.
Qed.

(** Registering the test user on an empty table: 200 with the two fields. *)
Lemma users_create_result_mapping_witness :
Completes
  (fixture.serve apiserver.POST_users fixture.registration
     (sqlstore.New 0 sqlstore.emptyDB))
  200 [http.Field "X-Request-ID" "req-id"]
  [gin.H [("email", "user@example.test");
          ("encrypted_password", "$2a$password")]]
  (<["ctxKeyRequestID" := VString "req-id"]> ∅)
  (200%Z, [http.Field "X-Request-ID" "req-id"]) fixture.registered.
Proof.
pose proof (users_create_result_mapping fixture.hasher fixture.srv "req-id"
              fixture.registration (sqlstore.New 0 sqlstore.emptyDB))
  as Hcases.
vm_compute in Hcases. vm_compute. exact Hcases.
Defined.

(** C5 as stated fails: for the test user's email and password next to a
    field of the wrong type, [Create] succeeds and the user is stored, and
    the handler writes the two fields; yet the client was sent 400, not
    200. *)
Lemma created_after_binding_error_is_sent_400 :
let h := snd (sqlstore.User (sqlstore.New 0 sqlstore.emptyDB)) in
let o := fixture.serve apiserver.POST_users fixture.mismatch_registration
           (sqlstore.New 0 sqlstore.emptyDB) in
sqlstore.Create fixture.hasher fixture.IsEmail 0%nat (Some model.TestUser) h
= store.Created
    (Some (model.mkUser 1 "user@example.test" "password" "$2a$password"))
    fixture.registered
/\ gin.world_of o = fixture.registered
/\ gin.Written (gin.context_of o)
   = [gin.H [("email", "user@example.test");
             ("encrypted_password", "$2a$password")]]
/\ gin.Sent (gin.context_of o)
   = Some (400%Z, [http.Field "X-Request-ID" "req-id"])
/\ gin.Sent (gin.context_of o)
   <> Some (200%Z, [http.Field "X-Request-ID" "req-id"]).
Proof.
repeat split; try (vm_compute; reflexivity).
vm_compute. discriminate.
Qed.

(** A body that is not JSON, on both public handlers of the fixture server:
    gin answers 400 and both panic on the nil user. *)
Lemma nil_user_is_unguarded_witness :
let c := gin.NewContext fixture.malformed in
let c1 := gin.AbortWithStatus 400 c in
gin.Sent c1 = Some (400%Z, [])
/\ apiserver.handleSessionsCreate fixture.hasher fixture.srv gin.Ret c
     fixture.registered
   = gin.Panic NilDereference c1 fixture.registered
/\ apiserver.handleUsersCreate fixture.srv gin.Ret c fixture.registered
   = gin.Panic NilDereference c1 fixture.registered.
Proof.
intros c c1.
destruct (nil_user_is_unguarded fixture.hasher fixture.srv gin.Ret c
            fixture.registered eq_refl)
  as (_ & Hsent & Hsessions & Husers & _).
split; [| split].
- apply Hsent; reflexivity.
- exact Hsessions.
- exact Husers.
Defined.

(** C8 as stated fails: a body that is not JSON is answered 400. On the
    server over the SQL store the client of either public route has been
    sent gin's 400 before the handler panics; over a repository whose
    [Create] returns an error for a nil user, [handleUsersCreate] takes its
    own 400 branch and writes [{"error": "bad request"}]. *)
Lemma malformed_body_is_answered_400 :
gin.Sent
  (gin.context_of
     (fixture.serve apiserver.POST_sessions fixture.malformed
        fixture.registered))
= Some (400%Z, [http.Field "X-Request-ID" "req-id"])
/\ gin.Sent
     (gin.context_of
        (fixture.serve apiserver.POST_users fixture.malformed
           fixture.registered))
   = Some (400%Z, [http.Field "X-Request-ID" "req-id"])
/\ Completes
     (apiserver.ServeHTTP fixture.hasher fixture.strict_srv "req-id"
        apiserver.POST_users fixture.malformed fixture.registered)
     400 [http.Field "X-Request-ID" "req-id"]
     [gin.H [("error", "bad request")]]
     (<["ctxKeyRequestID" := VString "req-id"]> ∅)
     (400%Z, [http.Field "X-Request-ID" "req-id"]) fixture.registered.
Proof.
split; [vm_compute; reflexivity |]. split; [vm_compute; reflexivity |].
eexists. split; [vm_compute; reflexivity |].
repeat split; vm_compute; reflexivity.
Qed.




(** Registering the test user twice: 200, then 400, and one row. *)
Lemma email_registered_once_witness :
let table := sqlstore.db (sqlstore.this fixture.registered) in
(exists c2,
    apiserver.ServeHTTP fixture.hasher
      (apiserver.NewServer (sqlstore.AsStore fixture.hasher fixture.IsEmail)
         (cookie.NewStore fixture.codec))
      "req-id-2" apiserver.POST_users fixture.registration fixture.registered
    = gin.Ret c2 fixture.registered
    /\ gin.Status c2 = 400%Z
    /\ gin.Written c2 = [gin.H [("error", "bad request")]])
/\ sqlstore.count_email (model.Email model.TestUser) table = 1%nat
/\ NoDup (sqlstore.emails table)
/\ Forall (fun e => e <> "") (sqlstore.emails table).
Proof.
apply (email_registered_once fixture.hasher fixture.IsEmail
         (cookie.NewStore fixture.codec) "req-id" "req-id-2"
         fixture.registration fixture.registration
         (sqlstore.New 0 sqlstore.emptyDB) model.TestUser model.TestUser
         fixture.registered_response fixture.registered).
- apply sqlstore.reachable_empty.
- reflexivity.
- reflexivity.
- reflexivity.
- vm_compute; reflexivity.
- reflexivity.
Defined.
